(** * Intraday session analytics: VWAP bands, session labels and the
      buffered-entry backtest

    A shallow embedding of [calculation.py] (function [process_data] with its
    nested [assign_session] and [label_intraday_state]) and of
    [scenarios/trade_buffer.py] ([analyze_session], [compute_winning_streaks]
    and the collecting loop of [main]).

    Numbers.  The Python code computes on IEEE binary64 values held in pandas
    columns.  The embedding keeps the special values of that arithmetic (NaN
    and the two infinities, with their propagation rules and the behaviour of
    a division by zero) and takes the finite values to be exact rationals
    ([Qc]): rounding, overflow and the sign of zero are not modelled.  The
    numeric fields read from the input file are finite numbers.  The square
    root taken by the pandas standard deviation is a parameter of the
    development.  The statements about frames are phrased with the
    operations of that arithmetic ([fadd], [fsub], [fmul], [fdiv] and the
    comparisons), at the places where the code applies them.  Where the
    outcome of the code depends on the rounding of a result, the expression
    is evaluated on the primitive binary64 numbers in [Binary64].

    Time.  A timestamp is a calendar date (a day number) with a time of day
    (microseconds since midnight); subtracting one day decrements the day
    number.

    Frames.  A data frame is the list of its rows, in frame order; the
    pandas operations on columns are defined on lists in [Pandas].  No
    statement below relies on the rows being in timestamp order. *)

From Corelib Require PrimFloat.
From Stdlib Require Import QArith Qcanon.
From stdpp Require Import base numbers option list sorting gmap strings.

Local Open Scope Z_scope.

(** ** Column values *)

Module Float.

(** A value of a float column: a finite number or an IEEE special value. *)
Inductive fval : Type :=
| Fin (q : Qc)
| PInf
| NInf
| NaN.

#[global] Instance fval_eq_dec : EqDecision fval.
Proof. solve_decision. Defined.

#[global] Instance fval_inhabited : Inhabited fval := populate NaN.

Definition qc (n : Z) (d : positive) : Qc := Q2Qc (n # d).

Definition Qc_ltb (a b : Qc) : bool :=
  match (a ?= b)%Qc with Lt => true | _ => false end.

Definition Qc_leb (a b : Qc) : bool :=
  match (a ?= b)%Qc with Gt => false | _ => true end.

Definition Qc_eqb (a b : Qc) : bool :=
  match (a ?= b)%Qc with Eq => true | _ => false end.

Definition fneg (x : fval) : fval :=
  match x with
  | Fin a => Fin (- a)%Qc
  | PInf => NInf
  | NInf => PInf
  | NaN => NaN
  end.

Definition fadd (x y : fval) : fval :=
  match x, y with
  | NaN, _ | _, NaN => NaN
  | Fin a, Fin b => Fin (a + b)%Qc
  | PInf, NInf | NInf, PInf => NaN
  | PInf, _ | _, PInf => PInf
  | NInf, _ | _, NInf => NInf
  end.

Definition fsub (x y : fval) : fval := fadd x (fneg y).

(** The infinity carrying the sign of [a]; NaN for [a = 0]. *)
Definition inf_signed (a : Qc) : fval :=
  match (a ?= 0)%Qc with
  | Gt => PInf
  | Lt => NInf
  | Eq => NaN
  end.

Definition fmul (x y : fval) : fval :=
  match x, y with
  | NaN, _ | _, NaN => NaN
  | Fin a, Fin b => Fin (a * b)%Qc
  | PInf, Fin a | Fin a, PInf => inf_signed a
  | NInf, Fin a | Fin a, NInf => inf_signed (- a)%Qc
  | PInf, PInf | NInf, NInf => PInf
  | PInf, NInf | NInf, PInf => NInf
  end.

(** Division as numpy performs it on float columns: no exception, a zero
    divisor gives NaN for [0 / 0] and an infinity otherwise. *)
Definition fdiv (x y : fval) : fval :=
  match x, y with
  | NaN, _ | _, NaN => NaN
  | Fin a, Fin b =>
      if Qc_eqb b 0 then inf_signed a else Fin (a / b)%Qc
  | Fin _, (PInf | NInf) => Fin 0%Qc
  | (PInf | NInf), (PInf | NInf) => NaN
  | PInf, Fin b => if Qc_ltb b 0 then NInf else PInf
  | NInf, Fin b => if Qc_ltb b 0 then PInf else NInf
  end.

(** Comparisons; every comparison with NaN is false. *)
Definition fltb (x y : fval) : bool :=
  match x, y with
  | NaN, _ | _, NaN => false
  | Fin a, Fin b => Qc_ltb a b
  | NInf, (Fin _ | PInf) => true
  | Fin _, PInf => true
  | _, _ => false
  end.

Definition fleb (x y : fval) : bool :=
  match x, y with
  | NaN, _ | _, NaN => false
  | Fin a, Fin b => Qc_leb a b
  | NInf, _ => true
  | _, PInf => true
  | _, _ => false
  end.

Definition feqb (x y : fval) : bool :=
  match x, y with
  | Fin a, Fin b => Qc_eqb a b
  | PInf, PInf | NInf, NInf => true
  | _, _ => false
  end.

Definition fgtb (x y : fval) : bool := fltb y x.
Definition fgeb (x y : fval) : bool := fleb y x.

Definition isna (x : fval) : bool :=
  match x with NaN => true | _ => false end.

(** [Series.fillna(v)]. *)
Definition fillna (v : fval) (x : fval) : fval :=
  if isna x then v else x.


End Float.

Export Float.

(** ** Timestamps *)

Record Timestamp : Type := mkTimestamp {
  ts_date : Z;   (* [dt.date()], as a day number *)
  ts_time : Z    (* [dt.time()], in microseconds since midnight *)
}.

#[global] Instance Timestamp_eq_dec : EqDecision Timestamp.
Proof. solve_decision. Defined.

#[global] Instance Timestamp_countable : Countable Timestamp.
Proof.
  refine (inj_countable' (λ t, (ts_date t, ts_time t))
                         (λ p, mkTimestamp p.1 p.2) _).
  by intros [].
Defined.

(** Order of the index: by date, then by time of day. *)
Definition ts_leb (a b : Timestamp) : bool :=
  (ts_date a <? ts_date b) || ((ts_date a =? ts_date b) && (ts_time a <=? ts_time b)).

(** [dt - pd.Timedelta(days=n)]. *)
Definition sub_days (dt : Timestamp) (n : Z) : Timestamp :=
  mkTimestamp (ts_date dt - n) (ts_time dt).

(** A time of day given as hours, minutes, seconds. *)
Definition hms (h m s : Z) : Z := ((h * 60 + m) * 60 + s) * 1000000.

(** ** The pandas operations used by the code *)

Module Pandas.

#[global] Instance Qc_inhabited : Inhabited Qc := populate 0%Qc.

Definition Qc_max (a b : Qc) : Qc := if Qc_ltb a b then b else a.
Definition Qc_min (a b : Qc) : Qc := if Qc_ltb b a then b else a.

(** [Series.max()] and [Series.min()]: NaN on an empty series. *)
Definition series_max (xs : list Qc) : fval :=
  match xs with
  | [] => NaN
  | x :: xs' => Fin (foldl Qc_max x xs')
  end.

Definition series_min (xs : list Qc) : fval :=
  match xs with
  | [] => NaN
  | x :: xs' => Fin (foldl Qc_min x xs')
  end.

Definition sum (xs : list Qc) : Qc := foldr Qcplus 0%Qc xs.

(** [Series.cumsum()]. *)
Fixpoint cumsum_from (acc : Qc) (xs : list Qc) : list Qc :=
  match xs with
  | [] => []
  | x :: xs' => (acc + x)%Qc :: cumsum_from (acc + x)%Qc xs'
  end.

Definition cumsum (xs : list Qc) : list Qc := cumsum_from 0%Qc xs.

(** [Series.expanding().agg()]: the aggregate of every non-empty prefix. *)
Definition expanding {A B : Type} (agg : list A → B) (xs : list A) : list B :=
  imap (λ i _, agg (take (S i) xs)) xs.

Section Std.
(** The square root of numpy, on the non-negative rationals. *)
Variable sqrt : Qc → Qc.

Definition mean (xs : list Qc) : Qc :=
  (sum xs / Qc_of_Z (Z.of_nat (length xs)))%Qc.

(** Sample variance (ddof = 1) of at least two observations. *)
Definition var (xs : list Qc) : Qc :=
  (sum ((λ x, (x - mean xs) * (x - mean xs)) <$> xs)
   / Qc_of_Z (Z.of_nat (length xs) - 1))%Qc.

(** [std()] with the default ddof = 1: NaN below two observations. *)
Definition std (xs : list Qc) : fval :=
  if (length xs <? 2)%nat then NaN else Fin (sqrt (var xs)).
End Std.

Section Groupby.
Context {K : Type} `{EqDecision K}.

(** The values of the rows whose key is [k], in frame order. *)
Definition group {A : Type} (k : K) (keys : list K) (xs : list A) : list A :=
  (filter (λ p, p.1 = k) (zip keys xs)).*2.

(** [groupby(keys).cumcount()]: the position of each row in its group. *)
Definition groupby_cumcount (keys : list K) : list nat :=
  imap (λ i k, length (filter (λ k', k' = k) (take i keys))) keys.

(** [groupby(keys).transform(f)]: [f] runs once on the values of each
    group and its results go back to the rows of the group, in order. *)
Definition groupby_transform {A B : Type} `{Inhabited B}
    (f : list A → list B) (keys : list K) (xs : list A) : list B :=
  zip_with (λ k n, f (group k keys xs) !!! n) keys (groupby_cumcount keys).

(** [groupby(keys).cumsum()]. *)
Definition groupby_cumsum (keys : list K) (xs : list Qc) : list Qc :=
  groupby_transform cumsum keys xs.
End Groupby.

End Pandas.

(** ** [calculation.py] *)

Module Calculation.
Import Pandas.

(** A row of the frame read from the input file; [datetime] is the index. *)
Record Bar : Type := mkBar {
  datetime : Timestamp;
  Open : Qc;
  High : Qc;
  Low : Qc;
  Close : Qc;
  Volume : Qc
}.

(** A row of the frame at the end of STEP D. *)
Record Row : Type := mkRow {
  bar :> Bar;
  date : Z;
  time : Z;
  session : Z;
  typical_price : Qc;
  cum_count : nat;
  cum_tp_volume : Qc;
  cum_volume : Qc;
  VWAP : fval;
  session_std : fval;
  vwap_upper : fval;
  vwap_lower : fval
}.

(** A row of the returned frame; [target_label] is [None] where the column
    holds no label. *)
Record LabeledRow : Type := mkLabeledRow {
  row :> Row;
  target_label : option string
}.

Definition nine_thirty : Z := hms 9 30 0.

Definition assign_session (dt : Timestamp) : Z :=
  if (nine_thirty <=? ts_time dt) then ts_date dt
  else ts_date (sub_days dt 1).

(** STEP B: the rows of the last [days_back] days before the latest bar. *)
Definition index_max (df : list Bar) : option Timestamp :=
  foldl (λ acc b,
           match acc with
           | None => Some (datetime b)
           | Some m => Some (if ts_leb m (datetime b) then datetime b else m)
           end) None df.

Definition filter_days_back (df : list Bar) (days_back : Z) : list Bar :=
  match index_max df with
  | None => []
  | Some last_dt =>
      let cutoff_dt := sub_days last_dt days_back in
      filter (λ b, ts_leb cutoff_dt (datetime b) = true) df
  end.

Definition label_intraday_state (session_df : list Row) (check_time : Z)
    : option (Timestamp * string) :=
  let target_bar := filter (λ r, time r = check_time) session_df in
  match last target_bar with
  | None => None
  | Some selected_bar =>
      let final_dt := datetime selected_bar in
      let session_up_to_check := filter (λ r, time r ≤ check_time) session_df in
      let high := series_max ((λ r : Row, High r) <$> session_up_to_check) in
      let low := series_min ((λ r : Row, Low r) <$> session_up_to_check) in
      let rng := fsub high low in
      let final_close := Fin (Close selected_bar) in
      if feqb rng (Fin 0%Qc) then Some (final_dt, "neutral"%string)
      else
        let position := fdiv (fsub final_close low) rng in
        if fgeb position (Fin (qc 3 4)) then Some (final_dt, "high"%string)
        else if fleb position (Fin (qc 1 4)) then Some (final_dt, "low"%string)
        else Some (final_dt, "neutral"%string)
  end.

(** [df.groupby('session')]: the groups in ascending key order, each with
    its rows in frame order. *)
Definition groupby_session (df : list Row) : list (Z * list Row) :=
  (λ k, (k, filter (λ r, session r = k) df))
    <$> merge_sort Z.le (remove_dups (session <$> df)).

Section ProcessData.
Variable sqrt : Qc → Qc.

(** STEPS C and D on the filtered frame. *)
Definition add_columns (df : list Bar) : list Row :=
  let date_c := (λ b, ts_date (datetime b)) <$> df in
  let time_c := (λ b, ts_time (datetime b)) <$> df in
  let session_c := (λ b, assign_session (datetime b)) <$> df in
  let typical_price_c := (λ b, (High b + Low b + Close b) / qc 3 1)%Qc <$> df in
  let cum_count_c := (λ n, n + 1)%nat <$> groupby_cumcount session_c in
  let cum_tp_volume_c :=
    groupby_cumsum session_c (zip_with Qcmult typical_price_c (Volume <$> df)) in
  let cum_volume_c := groupby_cumsum session_c (Volume <$> df) in
  let VWAP_c := zip_with (λ a b, fdiv (Fin a) (Fin b)) cum_tp_volume_c cum_volume_c in
  let session_std_c :=
    groupby_transform (λ x, fillna (Fin 0%Qc) <$> expanding (std sqrt) x)
                      session_c typical_price_c in
  let session_std_c :=
    zip_with (λ t s, if (t <? nine_thirty) then Fin 0%Qc else s) time_c session_std_c in
  let vwap_upper_c :=
    zip_with (λ v s, fadd v (fmul (Fin (qc 2 1)) s)) VWAP_c session_std_c in
  let vwap_lower_c :=
    zip_with (λ v s, fsub v (fmul (Fin (qc 2 1)) s)) VWAP_c session_std_c in
  imap (λ i b,
          {| bar := b;
             date := date_c !!! i;
             time := time_c !!! i;
             session := session_c !!! i;
             typical_price := typical_price_c !!! i;
             cum_count := cum_count_c !!! i;
             cum_tp_volume := cum_tp_volume_c !!! i;
             cum_volume := cum_volume_c !!! i;
             VWAP := VWAP_c !!! i;
             session_std := session_std_c !!! i;
             vwap_upper := vwap_upper_c !!! i;
             vwap_lower := vwap_lower_c !!! i |}) df.

(** STEP E: the dictionary from the index of a target bar to its label. *)
Definition target_time_labels (df : list Row) (target_time : Z)
    : gmap Timestamp string :=
  foldl (λ labels g,
           match label_intraday_state g.2 target_time with
           | None => labels
           | Some (bar_dt, label) => <[bar_dt := label]> labels
           end) ∅ (groupby_session df).

(** [process_data] from STEP B on: [df] is the frame read from the file
    and sorted by its index.  The files written on the way and the printed
    count of consecutive down days are not part of the returned frame and
    are left out. *)
Definition process_data (df : list Bar) (days_back : Z) (target_time : Z)
    : list LabeledRow :=
  let df := add_columns (filter_days_back df days_back) in
  let labels := target_time_labels df target_time in
  (λ r, {| row := r; target_label := labels !! datetime r |}) <$> df.
End ProcessData.

End Calculation.

(** ** [scenarios/trade_buffer.py] *)

Module TradeBuffer.

Definition buffer : fval := Fin (qc 10 1).

(** A row of a session frame, with the columns [analyze_session] reads;
    [time_str] is the time column in the form HH:MM:SS and [target_label]
    is [None] where the column holds no value. *)
Record SessionRow : Type := mkSessionRow {
  time_str : string;
  target_label : option string;
  vwap_upper : fval;
  vwap_lower : fval;
  Close : fval
}.

(** The dictionary returned by [analyze_session]; the session key is the
    date that [compute_winning_streaks] parses from it. *)
Record Result : Type := mkResult {
  res_session : Z;
  res_target_label : string;
  entry_price : fval;
  price_15 : fval;
  profit_15 : fval;
  profitable_15 : bool;
  price_16 : fval;
  profit_16 : fval;
  profitable_16 : bool
}.

(** [str.lower()] on ASCII text. *)
Definition lower_ascii (c : Ascii.ascii) : Ascii.ascii :=
  let n := Ascii.N_of_ascii c in
  if ((65 <=? n) && (n <=? 90))%N then Ascii.ascii_of_N (n + 32) else c.

Fixpoint lower (s : string) : string :=
  match s with
  | EmptyString => EmptyString
  | String c s' => String (lower_ascii c) (lower s')
  end.

(** [analyze_session]; the messages printed when a session is dropped are
    left out, [None] stands for the Python [None]. *)
Definition analyze_session (session : Z) (df : list SessionRow) : option Result :=
  let row_1230 := filter (λ r, time_str r = "12:30:00"%string) df in
  let row_1500 := filter (λ r, time_str r = "15:00:00"%string) df in
  let row_1600 := filter (λ r, time_str r = "16:00:00"%string) df in
  entry_row ← head row_1230;
  target_label ← target_label entry_row;
  entry_price ←
    (if decide (lower target_label = "high"%string)
     then Some (fadd (vwap_upper entry_row) buffer)
     else if decide (lower target_label = "low"%string)
     then Some (fsub (vwap_lower entry_row) buffer)
     else None);
  r_1500 ← head row_1500;
  r_1600 ← head row_1600;
  let price_1500 := Close r_1500 in
  let price_16 := Close r_1600 in
  let '(profit_15, profit_16) :=
    if decide (lower target_label = "high"%string)
    then (fsub entry_price price_1500, fsub entry_price price_16)
    else (fsub price_1500 entry_price, fsub price_16 entry_price) in
  Some {| res_session := session;
          res_target_label := target_label;
          entry_price := entry_price;
          price_15 := price_1500;
          profit_15 := profit_15;
          profitable_15 := fgtb profit_15 (Fin 0%Qc);
          price_16 := price_16;
          profit_16 := profit_16;
          profitable_16 := fgtb profit_16 (Fin 0%Qc) |}.

(** [sorted(session_results, key=date)]: a stable sort, ascending. *)
Fixpoint insert_by_date (x : Result) (l : list Result) : list Result :=
  match l with
  | [] => [x]
  | y :: l' =>
      if (res_session x <=? res_session y) then x :: y :: l'
      else y :: insert_by_date x l'
  end.

Definition sorted (l : list Result) : list Result := foldr insert_by_date [] l.

(** [streaks.append(current_streak)] when the streak is not empty. *)
Definition close_streak (streaks : list nat) (current_streak : nat) : list nat :=
  if (0 <? current_streak)%nat then streaks ++ [current_streak] else streaks.

(** The loop over the sorted results, on the pair
    [(streaks, current_streak)]. *)
Fixpoint streak_loop (streaks : list nat) (current_streak : nat)
    (rs : list Result) : list nat * nat :=
  match rs with
  | [] => (streaks, current_streak)
  | res :: rs' =>
      if profitable_16 res
      then streak_loop streaks (current_streak + 1) rs'
      else streak_loop (close_streak streaks current_streak) 0 rs'
  end.

Definition winning_streaks (sorted_results : list Result) : list nat :=
  let '(streaks, current_streak) := streak_loop [] 0%nat sorted_results in
  close_streak streaks current_streak.

Definition list_max (x : nat) (xs : list nat) : nat := foldl Nat.max x xs.
Definition list_min (x : nat) (xs : list nat) : nat := foldl Nat.min x xs.

Definition nat_to_Qc (n : nat) : Qc := Qc_of_Z (Z.of_nat n).

(** Returns [(longest, average, shortest)]. *)
Definition compute_winning_streaks (session_results : list Result)
    : nat * Qc * nat :=
  let sorted_results := sorted session_results in
  match winning_streaks sorted_results with
  | [] => (0%nat, 0%Qc, 0%nat)
  | s :: ss =>
      let longest := list_max s ss in
      let shortest := list_min s ss in
      let average :=
        (nat_to_Qc (sum_list (s :: ss)) / nat_to_Qc (length (s :: ss)))%Qc in
      (longest, average, shortest)
  end.

(** The loop of [main] that gathers the results of the sessions that
    have one. *)
Definition collect_results (sessions : list (Z * list SessionRow)) : list Result :=
  foldl (λ session_results sd,
           match analyze_session sd.1 sd.2 with
           | Some result => session_results ++ [result]
           | None => session_results
           end) [] sessions.

End TradeBuffer.

(** ** [calculation.py], the count of consecutive down days *)

Module DownDays.
Import Pandas Calculation.

(** A row of the frame [daily]: a calendar date with the first Open and the
    last Close of its bars. *)
Record Daily : Type := mkDaily {
  d_date : Z;
  d_open : Qc;
  d_close : Qc
}.

(** [df.groupby('date').agg(open=('Open', 'first'), close=('Close', 'last'))]:
    one row per date, in ascending order of the dates.  A group is never
    empty, the default of [head] and [last] is not reached. *)
Definition daily (df : list Row) : list Daily :=
  (λ k, let g := filter (λ r, date r = k) df in
        {| d_date := k;
           d_open := default 0%Qc ((λ r : Row, Open r) <$> head g);
           d_close := default 0%Qc ((λ r : Row, Close r) <$> last g) |})
    <$> merge_sort Z.le (remove_dups (date <$> df)).

(** [daily['close'] < daily['open']]. *)
Definition down_day (days : list Daily) : list bool :=
  (λ d, Qc_ltb (d_close d) (d_open d)) <$> days.

(** [Series.shift()]: every value moves down by one row, the first row has
    no value. *)
Definition shift {A : Type} (xs : list A) : list (option A) :=
  take (length xs) (None :: (Some <$> xs)).

(** [flags != flags.shift()]; a flag differs from a missing value. *)
Definition changed (flags : list bool) : list bool :=
  zip_with (λ f p, bool_decide (Some f ≠ p)) flags (shift flags).

(** [Series.cumsum()] on booleans: the number of [true] so far. *)
Fixpoint cumsum_bool (acc : nat) (bs : list bool) : list nat :=
  match bs with
  | [] => []
  | b :: bs' =>
      let acc' := (acc + if b then 1 else 0)%nat in
      acc' :: cumsum_bool acc' bs'
  end.

(** The column [group]. *)
Definition group_ids (flags : list bool) : list nat :=
  cumsum_bool 0 (changed flags).

(** [groupby(keys).size()]: the number of rows of each key, in ascending
    order of the keys. *)
Definition groupby_size (keys : list nat) : list nat :=
  (λ k, length (filter (λ k', k' = k) keys))
    <$> merge_sort le (remove_dups keys).

(** [daily[daily['down_day']].groupby('group').size()]. *)
Definition down_groups (flags : list bool) : list nat :=
  groupby_size ((filter (λ p, p.2 = true) (zip (group_ids flags) flags)).*1).

(** [down_groups.max() if not down_groups.empty else 0]. *)
Definition max_of_sizes (sizes : list nat) : nat :=
  match sizes with
  | [] => 0%nat
  | s :: ss => foldl Nat.max s ss
  end.

(** The count of consecutive down days of a frame. *)
Definition max_consecutive_down (df : list Row) : nat :=
  max_of_sizes (down_groups (down_day (daily df))).

(** The number printed by [process_data], computed on the frame that it
    returns. *)
Definition printed_down_days (sqrt : Qc → Qc) (df : list Bar)
    (days_back target_time : Z) : nat :=
  max_consecutive_down
    ((λ r : LabeledRow, row r) <$> process_data sqrt df days_back target_time).

End DownDays.

(** ** [filter.py] *)

Module Filter.

Section FilterByDate.
(** The rows of the file and their column [session], read as a date. *)
Context {R : Type} (session : R → Z).

(** [filter_by_date] on the rows read from the input file; the result is
    the frame written to the output file. *)
Definition filter_by_date (df : list R) (target_date : Z) : list R :=
  let start_date := target_date - 2 in
  filter (λ r, start_date ≤ session r ∧ session r ≤ target_date) df.
End FilterByDate.

End Filter.

(** ** [scenarios/trade_buffer.py], the summary of [main] *)

Module Summary.
Import TradeBuffer.

(** [Series.mean()]: the mean of the values that are not NaN, NaN when
    there is none. *)
Definition series_mean (xs : list fval) : fval :=
  let vs := filter (λ x, isna x = false) xs in
  fdiv (foldl fadd (Fin 0%Qc) vs) (Fin (nat_to_Qc (length vs))).

(** [Series.sum()] on booleans. *)
Definition count_true (bs : list bool) : nat :=
  length (filter (λ b, b = true) bs).

(** The numbers that [main] writes to the summary; the fields are [None]
    where the summary reads N/A. *)
Record Stats : Type := mkStats {
  total_sessions : nat;
  avg_profit_15 : option fval;
  avg_profit_16 : option fval;
  positive_sessions_15 : nat;
  positive_sessions_16 : nat;
  percent_15 : option Qc;
  percent_16 : option Qc;
  longest_streak : nat;
  average_streak : Qc;
  shortest_streak : nat
}.

Definition percent (positive total : nat) : Qc :=
  (nat_to_Qc positive / nat_to_Qc total * qc 100 1)%Qc.

Definition summary (session_results : list Result) : Stats :=
  let total_sessions := length session_results in
  let nonempty := (0 <? total_sessions)%nat in
  let positive_sessions_15 :=
    if nonempty then count_true (profitable_15 <$> session_results) else 0%nat in
  let positive_sessions_16 :=
    if nonempty then count_true (profitable_16 <$> session_results) else 0%nat in
  let '(longest, average, shortest) := compute_winning_streaks session_results in
  {| total_sessions := total_sessions;
     avg_profit_15 :=
       if nonempty then Some (series_mean (profit_15 <$> session_results)) else None;
     avg_profit_16 :=
       if nonempty then Some (series_mean (profit_16 <$> session_results)) else None;
     positive_sessions_15 := positive_sessions_15;
     positive_sessions_16 := positive_sessions_16;
     percent_15 :=
       if nonempty then Some (percent positive_sessions_15 total_sessions) else None;
     percent_16 :=
       if nonempty then Some (percent positive_sessions_16 total_sessions) else None;
     longest_streak := longest;
     average_streak := average;
     shortest_streak := shortest |}.

(** [main] on the sessions delivered by the data source. *)
Definition main_stats (sessions : list (Z * list SessionRow)) : Stats :=
  summary (collect_results sessions).

End Summary.
(** ** The arithmetic of the price columns on binary64 values

    The expressions of [calculation.py] that compute on float columns, on
    the primitive binary64 numbers: every operation rounds to nearest, ties
    to even, as numpy does. *)

Module Binary64.
Import PrimFloat.

(** [(df['High'] + df['Low'] + df['Close']) / 3]. *)
Definition typical_price (High Low Close : float) : float :=
  ((High + Low + Close) / 3)%float.

(** [df['cum_tp_volume'] / df['cum_volume']]. *)
Definition VWAP (cum_tp_volume cum_volume : float) : float :=
  (cum_tp_volume / cum_volume)%float.

(** [df['VWAP'] + 2 * df['session_std']] and
    [df['VWAP'] - 2 * df['session_std']]. *)
Definition vwap_upper (VWAP session_std : float) : float :=
  (VWAP + 2 * session_std)%float.

Definition vwap_lower (VWAP session_std : float) : float :=
  (VWAP - 2 * session_std)%float.

(** The classification of [label_intraday_state], from the range of the
    session up to the check time and the close of the selected bar. *)
Definition position (high low final_close : float) : float :=
  ((final_close - low) / (high - low))%float.

Definition label (high low final_close : float) : string :=
  let rng := (high - low)%float in
  if (rng =? 0)%float then "neutral"%string
  else
    let position := position high low final_close in
    if (0.75 <=? position)%float then "high"%string
    else if (position <=? 0.25)%float then "low"%string
    else "neutral"%string.

End Binary64.

(** * Vocabulary of the statements *)

Module Spec.
Import Calculation.

(** The session rule as a relation between a timestamp and a date. *)
Definition in_session (dt : Timestamp) (s : Z) : Prop :=
  (nine_thirty ≤ ts_time dt ∧ s = ts_date dt)
  ∨ (ts_time dt < nine_thirty ∧ s = ts_date dt - 1).

Definition typical (b : Bar) : Qc := ((High b + Low b + Close b) / qc 3 1)%Qc.

(** The bars of [df] up to position [i], inclusive, that share the
    session of [b]. *)
Definition session_so_far (df : list Bar) (i : nat) (b : Bar) : list Bar :=
  filter (λ b', assign_session (datetime b') = assign_session (datetime b))
         (take (S i) df).

(** What [add_columns] puts in row [i], from the bars of the same
    session seen so far. *)
Definition row_of (sqrt : Qc → Qc) (df : list Bar) (i : nat) (b : Bar) : Row :=
  let sofar := session_so_far df i b in
  let ctv := Pandas.sum ((λ b', typical b' * Volume b')%Qc <$> sofar) in
  let cv := Pandas.sum (Volume <$> sofar) in
  let vwap := fdiv (Fin ctv) (Fin cv) in
  let sd :=
    if (ts_time (datetime b) <? nine_thirty) then Fin 0%Qc
    else fillna (Fin 0%Qc) (Pandas.std sqrt (typical <$> sofar)) in
  {| bar := b;
     date := ts_date (datetime b);
     time := ts_time (datetime b);
     session := assign_session (datetime b);
     typical_price := typical b;
     cum_count := length sofar;
     cum_tp_volume := ctv;
     cum_volume := cv;
     VWAP := vwap;
     session_std := sd;
     vwap_upper := fadd vwap (fmul (Fin (qc 2 1)) sd);
     vwap_lower := fsub vwap (fmul (Fin (qc 2 1)) sd) |}.

(** Row [r], at position [i] of a frame, opens its session: no earlier row
    has its key. *)
Definition first_of_session {R : Type} (key : R → Z) (df : list R)
    (i : nat) (r : R) : Prop :=
  df !! i = Some r
  ∧ ∀ j r', (j < i)%nat → df !! j = Some r' → key r' ≠ key r.

(** Row [r], at position [i], closes its session: no later row has its
    key. *)
Definition last_of_session {R : Type} (key : R → Z) (df : list R)
    (i : nat) (r : R) : Prop :=
  df !! i = Some r
  ∧ ∀ j r', (i < j)%nat → df !! j = Some r' → key r' ≠ key r.


(** [y] lies in another session than [x]. *)
Definition other_key {R : Type} (key : R → Z) (x y : R) : bool :=
  negb (key y =? key x).

(** Row [r], at position [i], is the last row of the frame whose time of
    day is exactly [t]. *)
Definition last_at_time (df : list Row) (t : Z) (i : nat) (r : Row) : Prop :=
  df !! i = Some r ∧ time r = t
  ∧ ∀ j r', (i < j)%nat → df !! j = Some r' → time r' ≠ t.

Definition is_max (h : Qc) (xs : list Qc) : Prop :=
  h ∈ xs ∧ ∀ x, x ∈ xs → (x ≤ h)%Qc.

Definition is_min (l : Qc) (xs : list Qc) : Prop :=
  l ∈ xs ∧ ∀ x, x ∈ xs → (l ≤ x)%Qc.

(** Row [r], at position [i], is the first row of a session frame whose
    time column reads [t]. *)
Definition first_at_time (df : list TradeBuffer.SessionRow) (t : string)
    (i : nat) (r : TradeBuffer.SessionRow) : Prop :=
  df !! i = Some r ∧ TradeBuffer.time_str r = t
  ∧ ∀ j r', (j < i)%nat → df !! j = Some r' → TradeBuffer.time_str r' ≠ t.


(** Ascending order of the session dates. *)
Definition date_le (a b : TradeBuffer.Result) : Prop :=
  TradeBuffer.res_session a ≤ TradeBuffer.res_session b.

(** [runs_of flags ns]: [ns] lists, in order, the lengths of the maximal
    runs of [true] in [flags]. *)
Inductive runs_of : list bool → list nat → Prop :=
| runs_nil : runs_of [] []
| runs_false l ns : runs_of l ns → runs_of (false :: l) ns
| runs_true n l ns :
    (0 < n)%nat → (l = [] ∨ ∃ l', l = false :: l') →
    runs_of l ns → runs_of (replicate n true ++ l) (n :: ns).

(** The [n] flags from position [i] on are all [true]. *)
Definition all_true (flags : list bool) (i n : nat) : Prop :=
  ∀ j, (i ≤ j < i + n)%nat → flags !! j = Some true.

End Spec.

(** * Sample inputs *)

Module Examples.
Import Calculation.

(** A bar given by its day, time of day, high, low, close and volume. *)
Definition sample_bar (d t : Z) (h l c v : Z) : Bar :=
  mkBar (mkTimestamp d t) (qc c 1) (qc h 1) (qc l 1) (qc c 1) (qc v 1).

(** Two sessions; the first opens with two bars without volume and is
    extended by the overnight bar of the next day. *)
Definition sample_frame : list Bar :=
  [ sample_bar 1 (hms 9 30 0) 12 9 11 0;
    sample_bar 1 (hms 10 0 0) 13 10 12 0;
    sample_bar 1 (hms 12 30 0) 15 11 15 5;
    sample_bar 1 (hms 15 0 0) 16 12 13 5;
    sample_bar 2 (hms 9 0 0) 10 8 9 7;
    sample_bar 2 (hms 9 30 0) 12 9 11 3 ].

(** An approximation of the square root, for evaluating the examples. *)
Definition sample_sqrt (x : Qc) : Qc :=
  Q2Qc (Z.sqrt (Qnum (x * qc 10000 1)%Qc / Zpos (Qden (x * qc 10000 1)%Qc)) # 100).

(** The rows of the first session up to 15:00. *)
Definition sample_session : list Row :=
  add_columns sample_sqrt (take 4 sample_frame).

(** A session frame of the backtest: label, bands and close at the entry
    time and the closes at the two checkpoints. *)
Definition sample_row (t : string) (l : option string) (u lo c : Z)
    : TradeBuffer.SessionRow :=
  TradeBuffer.mkSessionRow t l (Fin (qc u 1)) (Fin (qc lo 1)) (Fin (qc c 1)).

Definition short_session : list TradeBuffer.SessionRow :=
  [ sample_row "12:00:00" None 99 91 96;
    sample_row "12:30:00" (Some "high"%string) 100 90 99;
    sample_row "15:00:00" None 101 89 97;
    sample_row "16:00:00" None 101 89 95 ].

Definition long_session : list TradeBuffer.SessionRow :=
  [ sample_row "12:30:00" (Some "LOW"%string) 60 50 51;
    sample_row "15:00:00" None 60 50 40;
    sample_row "16:00:00" None 60 50 45 ].

(** A session without a row at 16:00. *)
Definition cut_session : list TradeBuffer.SessionRow :=
  [ sample_row "12:30:00" (Some "high"%string) 100 90 99;
    sample_row "15:00:00" None 101 89 97 ].

(** A result with a given date and outcome at the second checkpoint. *)
Definition sample_result (d : Z) (p : bool) : TradeBuffer.Result :=
  TradeBuffer.mkResult d "high" (Fin 0%Qc) (Fin 0%Qc) (Fin 0%Qc) p
                       (Fin 0%Qc) (Fin 0%Qc) p.

End Examples.

(** * Further vocabulary *)

Module SpecMore.

(** The labels that the label engine writes. *)
Definition labels : list string := ["high"; "low"; "neutral"]%string.

(** The column [changed] of the down-day count from a previous flag [p],
    and the group numbers of the down days from a count [acc]. *)
Definition changed_from (p : option bool) (flags : list bool) : list bool :=
  zip_with (λ f q, bool_decide (Some f ≠ q)) flags
           (take (length flags) (p :: (Some <$> flags))).

Definition down_ids_from (p : option bool) (acc : nat) (flags : list bool)
    : list nat :=
  (filter (λ q, q.2 = true)
          (zip (DownDays.cumsum_bool acc (changed_from p flags)) flags)).*1.

(** The range of pandas, which counts time in 64-bit nanoseconds from
    1970-01-01, the day numbered 0: the whole days that a [pd.Timedelta] can
    hold, and the dates on which every time of day is a [pd.Timestamp]. *)
Definition timedelta_days (n : Z) : Prop := -106751 ≤ n ≤ 106751.

Definition timestamp_date (d : Z) : Prop := -106751 ≤ d ≤ 106750.

End SpecMore.

(** * Further sample inputs *)

Module ExamplesMore.
Import Calculation Examples.



End ExamplesMore.
(** * Properties *)

(** ** Arithmetic of column values *)

Module FloatFacts.

Lemma Qc_eqb_eq (a b : Qc) : Qc_eqb a b = true ↔ a = b.
Proof.
  unfold Qc_eqb. rewrite Qceq_alt.
  destruct (a ?= b)%Qc; split; congruence.
Qed.


Lemma Qc_leb_le (a b : Qc) : Qc_leb a b = true ↔ (a ≤ b)%Qc.
Proof.
  unfold Qc_leb. rewrite Qcle_alt.
  destruct (a ?= b)%Qc; split; congruence.
Qed.



Lemma Qc_eqb_neq (a b : Qc) : Qc_eqb a b = false ↔ a ≠ b.
Proof. rewrite <- not_true_iff_false, Qc_eqb_eq. done. Qed.



Lemma fmul_2_0 : fmul (Fin (qc 2 1)) (Fin 0%Qc) = Fin 0%Qc.
Proof. simpl. f_equal. Qed.

Lemma fadd_0_r (v : fval) : fadd v (Fin 0%Qc) = v.
Proof. destruct v; simpl; try reflexivity. f_equal. ring. Qed.

Lemma fsub_0_r (v : fval) : fsub v (Fin 0%Qc) = v.
Proof. destruct v; simpl; try reflexivity. f_equal. ring. Qed.

(** Equality with a finite value, by comparing the fractions. *)
Lemma Fin_by_value (x : fval) (q : Qc) :
  match x with Fin a => Qeq_bool a q | _ => false end = true → x = Fin q.
Proof.
  destruct x as [a| | |]; try discriminate.
  intros Ha%Qeq_bool_eq. f_equal. by apply Qc_is_canon.
Qed.

End FloatFacts.

(** ** The pandas operations *)

Module PandasFacts.
Import Pandas.

Section Filter.
Context {A : Type} (P : A → Prop) `{!∀ x, Decision (P x)}.

Lemma filter_snoc (l : list A) (x : A) :
  filter P (l ++ [x]) = if decide (P x) then filter P l ++ [x] else filter P l.
Proof.
  rewrite filter_app. cbn. destruct (decide (P x)); [done|].
  by rewrite app_nil_r.
Qed.

(** The elements of [filter P l] up to the one coming from position [i]
    are the filtered prefix of length [i + 1]. *)
Lemma filter_take_rank (l : list A) (i : nat) (x : A) :
  l !! i = Some x → P x →
  take (S (length (filter P (take i l)))) (filter P l)
  = filter P (take (S i) l).
Proof.
  intros Hi HP.
  rewrite (take_S_r _ _ _ Hi), filter_snoc, decide_True by done.
  rewrite <- (take_drop_middle l i x Hi) at 2.
  rewrite filter_app, filter_cons, decide_True by done.
  rewrite take_app, Nat.sub_succ_l, Nat.sub_diag by lia.
  rewrite firstn_all2 by lia. done.
Qed.

Lemma filter_none (l : list A) :
  (∀ x, x ∈ l → ¬ P x) → filter P l = [].
Proof.
  induction l as [|y l IH]; intros Hl; [done|].
  rewrite filter_cons, decide_False by (apply Hl; left).
  apply IH. intros x Hx. apply Hl. by right.
Qed.
End Filter.

Lemma lookup_cumsum_from (acc : Qc) (xs : list Qc) (n : nat) :
  (n < length xs)%nat →
  cumsum_from acc xs !! n = Some (acc + sum (take (S n) xs))%Qc.
Proof.
  revert acc n. induction xs as [|x xs IH]; intros acc n Hn; simpl in *; [lia|].
  destruct n as [|n]; simpl.
  - f_equal. unfold sum. simpl. ring.
  - rewrite IH by lia. f_equal. unfold sum. simpl. ring.
Qed.

Lemma lookup_cumsum (xs : list Qc) (n : nat) :
  (n < length xs)%nat → cumsum xs !! n = Some (sum (take (S n) xs)).
Proof.
  intros Hn. unfold cumsum. rewrite lookup_cumsum_from by done.
  f_equal. ring.
Qed.

Lemma lookup_expanding {A B : Type} (agg : list A → B) (xs : list A) (n : nat) :
  (n < length xs)%nat → expanding agg xs !! n = Some (agg (take (S n) xs)).
Proof.
  intros Hn. unfold expanding. rewrite list_lookup_imap.
  destruct (lookup_lt_is_Some_2 xs n Hn) as [x ->]. done.
Qed.

Lemma std_single (sqrt : Qc → Qc) (x : Qc) : std sqrt [x] = NaN.
Proof. reflexivity. Qed.

Section Groupby.
Context {K : Type} `{EqDecision K}.

Lemma length_groupby_cumcount (keys : list K) :
  length (groupby_cumcount keys) = length keys.
Proof. apply length_imap. Qed.

Lemma lookup_groupby_cumcount (keys : list K) (i : nat) (k : K) :
  keys !! i = Some k →
  groupby_cumcount keys !! i
  = Some (length (filter (λ k', k' = k) (take i keys))).
Proof.
  intros Hk. unfold groupby_cumcount. by rewrite list_lookup_imap, Hk.
Qed.

Lemma length_groupby_transform {A B : Type} `{Inhabited B}
    (f : list A → list B) (keys : list K) (xs : list A) :
  length (groupby_transform f keys xs) = length keys.
Proof.
  unfold groupby_transform.
  rewrite length_zip_with, length_groupby_cumcount. lia.
Qed.

Lemma lookup_groupby_transform {A B : Type} `{Inhabited B}
    (f : list A → list B) (keys : list K) (xs : list A) (i : nat) (k : K) :
  keys !! i = Some k →
  groupby_transform f keys xs !! i
  = Some (f (group k keys xs)
            !!! length (filter (λ k', k' = k) (take i keys))).
Proof.
  intros Hk. unfold groupby_transform.
  by rewrite lookup_zip_with, Hk, (lookup_groupby_cumcount _ _ _ Hk).
Qed.

Lemma length_filter_fst {A : Type} (k : K) (l : list (K * A)) :
  length (filter (λ p, p.1 = k) l) = length (filter (λ k', k' = k) (l.*1)).
Proof.
  induction l as [|[k' x] l IH]; [done|].
  rewrite fmap_cons, !filter_cons. simpl.
  destruct (decide (k' = k)); simpl; by rewrite IH.
Qed.

Lemma group_take {A : Type} (keys : list K) (xs : list A) (i : nat) (k : K) :
  length keys = length xs → keys !! i = Some k →
  take (S (length (filter (λ k', k' = k) (take i keys)))) (group k keys xs)
  = group k (take (S i) keys) (take (S i) xs).
Proof.
  intros Hlen Hk. unfold group.
  destruct (lookup_lt_is_Some_2 xs i) as [x Hx].
  { rewrite <- Hlen. by eapply lookup_lt_Some. }
  assert (zip keys xs !! i = Some (k, x)) as Hz.
  { by apply lookup_zip_with_Some; eauto. }
  rewrite <- fmap_take.
  replace (length (filter (λ k', k' = k) (take i keys)))
    with (length (filter (λ p : K * A, p.1 = k) (take i (zip keys xs)))).
  - rewrite (filter_take_rank _ _ _ _ Hz) by done.
    do 2 f_equal. apply zip_with_take.
  - rewrite length_filter_fst, fmap_take, fst_zip by lia. done.
Qed.

Lemma length_group_take {A : Type} (keys : list K) (xs : list A) (i : nat) (k : K) :
  length keys = length xs → keys !! i = Some k →
  length (group k (take (S i) keys) (take (S i) xs))
  = S (length (filter (λ k', k' = k) (take i keys))).
Proof.
  intros Hlen Hk. unfold group.
  rewrite length_fmap, length_filter_fst, fst_zip
    by (rewrite !length_take; lia).
  rewrite (take_S_r _ _ _ Hk), filter_snoc, decide_True by done.
  rewrite length_app. simpl. lia.
Qed.

Lemma rank_lt_group {A : Type} (keys : list K) (xs : list A) (i : nat) (k : K) :
  length keys = length xs → keys !! i = Some k →
  (length (filter (λ k', k' = k) (take i keys)) < length (group k keys xs))%nat.
Proof.
  intros Hlen Hk.
  pose proof (length_group_take keys xs i k Hlen Hk) as Hl.
  rewrite <- (group_take keys xs i k Hlen Hk), length_take in Hl. lia.
Qed.

(** A transformation that works prefix by prefix gives each row the
    aggregate of the rows of its group seen so far. *)
Lemma lookup_groupby_transform_prefix {A B : Type} `{Inhabited B}
    (f : list A → list B) (agg : list A → B)
    (keys : list K) (xs : list A) (i : nat) (k : K) :
  (∀ l n, (n < length l)%nat → f l !! n = Some (agg (take (S n) l))) →
  length keys = length xs → keys !! i = Some k →
  groupby_transform f keys xs !! i
  = Some (agg (group k (take (S i) keys) (take (S i) xs))).
Proof.
  intros Hf Hlen Hk.
  rewrite (lookup_groupby_transform _ _ _ _ _ Hk). f_equal.
  apply list_lookup_total_correct.
  rewrite Hf by by apply rank_lt_group.
  by rewrite group_take.
Qed.

Lemma lookup_groupby_cumsum (keys : list K) (xs : list Qc) (i : nat) (k : K) :
  length keys = length xs → keys !! i = Some k →
  groupby_cumsum keys xs !! i
  = Some (sum (group k (take (S i) keys) (take (S i) xs))).
Proof.
  intros. unfold groupby_cumsum.
  apply lookup_groupby_transform_prefix with (agg := sum); auto.
  apply lookup_cumsum.
Qed.
End Groupby.

End PandasFacts.

(** ** The columns of [process_data] *)

Module CalculationFacts.
Import Pandas Calculation Spec PandasFacts FloatFacts.

Lemma group_fmap {R A : Type} (key : R → Z) (g : R → A) (k : Z) (l : list R) :
  group k (key <$> l) (g <$> l) = g <$> filter (λ x, key x = k) l.
Proof.
  unfold group. induction l as [|x l IH]; [done|].
  csimpl. rewrite !filter_cons. simpl.
  destruct (decide (key x = k)); csimpl; by rewrite IH.
Qed.

Lemma length_filter_key {R : Type} (key : R → Z) (k : Z) (l : list R) :
  length (filter (λ k', k' = k) (key <$> l))
  = length (filter (λ x, key x = k) l).
Proof.
  induction l as [|x l IH]; [done|].
  rewrite fmap_cons, !filter_cons.
  destruct (decide (key x = k)); simpl; by rewrite IH.
Qed.

Section Columns.
Variable sqrt : Qc → Qc.
Variable df : list Bar.

Local Abbreviation key := (λ b : Bar, assign_session (datetime b)).

Lemma length_session_so_far (i : nat) (b : Bar) :
  df !! i = Some b →
  length (session_so_far df i b)
  = S (length (filter (λ k', k' = assign_session (datetime b))
                      (take i (key <$> df)))).
Proof.
  intros Hb. unfold session_so_far.
  rewrite (take_S_r _ _ _ Hb), filter_snoc, decide_True by done.
  rewrite length_app, <- fmap_take, (length_filter_key key). simpl. lia.
Qed.

Section Row.
Variables (i : nat) (b : Bar).
Hypothesis Hb : df !! i = Some b.

Lemma session_c_lookup :
  (key <$> df) !! i = Some (assign_session (datetime b)).
Proof. by rewrite list_lookup_fmap, Hb. Qed.

Lemma cum_tp_volume_c_lookup :
  groupby_cumsum (key <$> df)
    (zip_with Qcmult
       ((λ b0 : Bar, ((High b0 + Low b0 + Close b0) / qc 3 1)%Qc) <$> df)
       (Volume <$> df)) !! i
  = Some (sum ((λ b', typical b' * Volume b')%Qc <$> session_so_far df i b)).
Proof.
  rewrite zip_with_fmap_l, zip_with_fmap_r, zip_with_diag.
  erewrite lookup_groupby_cumsum;
    [|by rewrite !length_fmap|exact session_c_lookup].
  by rewrite <- !fmap_take, group_fmap.
Qed.

Lemma cum_volume_c_lookup :
  groupby_cumsum (key <$> df) (Volume <$> df) !! i
  = Some (sum (Volume <$> session_so_far df i b)).
Proof.
  erewrite lookup_groupby_cumsum;
    [|by rewrite !length_fmap|exact session_c_lookup].
  by rewrite <- !fmap_take, group_fmap.
Qed.

Lemma expanding_std_c_lookup :
  groupby_transform (λ x, fillna (Fin 0%Qc) <$> expanding (std sqrt) x)
    (key <$> df)
    ((λ b0 : Bar, ((High b0 + Low b0 + Close b0) / qc 3 1)%Qc) <$> df) !! i
  = Some (fillna (Fin 0%Qc) (std sqrt (typical <$> session_so_far df i b))).
Proof.
  erewrite (lookup_groupby_transform_prefix _
              (λ l, fillna (Fin 0%Qc) (std sqrt l)));
    [|intros l n Hn; by rewrite list_lookup_fmap, lookup_expanding
     |by rewrite !length_fmap|exact session_c_lookup].
  by rewrite <- !fmap_take, group_fmap.
Qed.

Lemma add_columns_lookup_Some : add_columns sqrt df !! i = Some (row_of sqrt df i b).
Proof.
  unfold add_columns. rewrite list_lookup_imap, Hb.
  cbn [fmap option_fmap option_map]. f_equal.
  pose proof session_c_lookup as Hk.
  unfold row_of. f_equal.
  - apply list_lookup_total_correct. by rewrite list_lookup_fmap, Hb.
  - apply list_lookup_total_correct. by rewrite list_lookup_fmap, Hb.
  - apply list_lookup_total_correct. by rewrite list_lookup_fmap, Hb.
  - apply list_lookup_total_correct. by rewrite list_lookup_fmap, Hb.
  - apply list_lookup_total_correct.
    rewrite list_lookup_fmap, (lookup_groupby_cumcount _ _ _ Hk).
    cbn [fmap option_fmap option_map].
    rewrite length_session_so_far by done. f_equal. lia.
  - apply list_lookup_total_correct, cum_tp_volume_c_lookup.
  - apply list_lookup_total_correct, cum_volume_c_lookup.
  - apply list_lookup_total_correct.
    by rewrite lookup_zip_with, cum_tp_volume_c_lookup, cum_volume_c_lookup.
  - apply list_lookup_total_correct.
    rewrite lookup_zip_with, list_lookup_fmap, Hb, expanding_std_c_lookup.
    done.
  - apply list_lookup_total_correct.
    rewrite !lookup_zip_with, cum_tp_volume_c_lookup, cum_volume_c_lookup.
    rewrite list_lookup_fmap, Hb, expanding_std_c_lookup. done.
  - apply list_lookup_total_correct.
    rewrite !lookup_zip_with, cum_tp_volume_c_lookup, cum_volume_c_lookup.
    rewrite list_lookup_fmap, Hb, expanding_std_c_lookup. done.
Qed.
End Row.

Lemma add_columns_lookup (i : nat) :
  add_columns sqrt df !! i = row_of sqrt df i <$> df !! i.
Proof.
  destruct (df !! i) as [b|] eqn:Hb.
  - by apply add_columns_lookup_Some.
  - unfold add_columns. by rewrite list_lookup_imap, Hb.
Qed.

Lemma length_add_columns : length (add_columns sqrt df) = length df.
Proof. unfold add_columns. apply length_imap. Qed.
End Columns.
End CalculationFacts.

(** ** Sessions inside a frame *)

Module SessionFacts.
Import Spec PandasFacts.

Section Keyed.
Context {R : Type} (key : R → Z) (l : list R).

Lemma same_key_first (i : nat) (x : R) :
  l !! i = Some x →
  (∀ j y, (j < i)%nat → l !! j = Some y → key y ≠ key x) →
  filter (λ y, key y = key x) (take (S i) l) = [x].
Proof.
  intros Hi Hfirst.
  rewrite (take_S_r _ _ _ Hi), filter_snoc, decide_True by done.
  rewrite filter_none; [done|].
  intros y [j [Hj Hlt]]%elem_of_take. by eapply Hfirst.
Qed.

Lemma same_key_last (i : nat) (x : R) :
  l !! i = Some x →
  (∀ j y, (i < j)%nat → l !! j = Some y → key y ≠ key x) →
  filter (λ y, key y = key x) (take (S i) l) = filter (λ y, key y = key x) l.
Proof.
  intros Hi Hlast.
  rewrite <- (take_drop (S i) l) at 2.
  rewrite filter_app, (filter_none _ (drop (S i) l)), app_nil_r; [done|].
  intros y [j Hj]%list_elem_of_lookup. rewrite lookup_drop in Hj.
  eapply Hlast; [|done]. lia.
Qed.


(** Boolean checks of the three positions, for evaluating them on a given
    frame. *)

Lemma forallb_other_key (x : R) (k : list R) (y : R) :
  forallb (other_key key x) k = true → y ∈ k → key y ≠ key x.
Proof.
  rewrite forallb_forall. intros Hall Hy%list_elem_of_In.
  specialize (Hall y Hy). unfold other_key in Hall.
  apply negb_true_iff, Z.eqb_neq in Hall. done.
Qed.

Lemma first_of_session_check (i : nat) (x : R) :
  l !! i = Some x → forallb (other_key key x) (take i l) = true →
  first_of_session key l i x.
Proof.
  intros Hi Hall. split; [done|]. intros j y Hj Hy.
  apply (forallb_other_key x (take i l)); [done|].
  apply elem_of_take. eauto.
Qed.


End Keyed.

End SessionFacts.

(** ** The frame returned by [process_data] *)

Module ProcessDataFacts.
Import Pandas Calculation Spec PandasFacts FloatFacts CalculationFacts SessionFacts.

Lemma sum_app (xs ys : list Qc) : sum (xs ++ ys) = (sum xs + sum ys)%Qc.
Proof.
  unfold sum. induction xs as [|x xs IH]; simpl; [ring|].
  rewrite IH. ring.
Qed.


Lemma elem_of_filter_days_back (df : list Bar) (days_back : Z) (b : Bar) :
  b ∈ filter_days_back df days_back → b ∈ df.
Proof.
  unfold filter_days_back. destruct (index_max df); [|by inversion 1].
  by intros [_ ?]%list_elem_of_filter.
Qed.

Lemma elem_of_session_so_far (df : list Bar) (i : nat) (b b' : Bar) :
  b' ∈ session_so_far df i b → b' ∈ df.
Proof.
  unfold session_so_far.
  intros [_ [j [Hj _]]%elem_of_take]%list_elem_of_filter.
  apply list_elem_of_lookup. eauto.
Qed.

Section Frame.
Variable sqrt : Qc → Qc.
Variables (df : list Bar) (days_back target_time : Z).

Local Abbreviation frame := (filter_days_back df days_back).
Local Abbreviation out := (process_data sqrt df days_back target_time).
Local Abbreviation key := (λ b : Bar, assign_session (datetime b)).
Local Abbreviation skey := (λ r : LabeledRow, session r).

Lemma process_data_lookup (i : nat) :
  out !! i
  = (λ b, {| row := row_of sqrt frame i b;
             target_label :=
               target_time_labels (add_columns sqrt frame) target_time
                 !! datetime b |}) <$> frame !! i.
Proof.
  unfold process_data. rewrite list_lookup_fmap, add_columns_lookup.
  by destruct (frame !! i).
Qed.

Lemma process_data_row (i : nat) (r : LabeledRow) :
  out !! i = Some r →
  ∃ b, frame !! i = Some b ∧ row r = row_of sqrt frame i b.
Proof.
  rewrite process_data_lookup. destruct (frame !! i) as [b|]; [|done].
  intros [= <-]. eauto.
Qed.

Lemma length_process_data : length out = length frame.
Proof. unfold process_data. by rewrite length_fmap, length_add_columns. Qed.


(** The session column depends on the timestamp of the row alone. *)
Lemma process_data_session (i : nat) (r : LabeledRow) :
  out !! i = Some r → session r = assign_session (datetime r).
Proof. by intros (b & _ & ->)%process_data_row. Qed.

(** Earlier, later and intermediate rows of the returned frame come from
    the bars at the same positions. *)
Lemma bars_of_rows (j : nat) (b' : Bar) :
  frame !! j = Some b' →
  ∃ r' : LabeledRow, out !! j = Some r' ∧ key b' = session r'.
Proof.
  intros Hb'. rewrite process_data_lookup, Hb'. eauto.
Qed.

Lemma session_column : skey <$> out = key <$> frame.
Proof.
  apply list_eq. intros i.
  rewrite !list_lookup_fmap, process_data_lookup. by destruct (frame !! i).
Qed.

(** The three positions of a row in its session, read on the bars. *)
Lemma first_of_session_bars (i : nat) (r : LabeledRow) :
  first_of_session skey out i r →
  ∃ b, row r = row_of sqrt frame i b ∧ first_of_session key frame i b.
Proof.
  intros [Hr Hfirst]. destruct (process_data_row _ _ Hr) as (b & Hb & Hrow).
  exists b. split; [done|]. split; [done|].
  intros j b' Hj Hb'. destruct (bars_of_rows j b' Hb') as (r' & Hr' & Hk).
  simpl in Hk. rewrite Hk. intros Heq. apply (Hfirst j r' Hj Hr').
  by rewrite Heq, Hrow.
Qed.

Lemma last_of_session_bars (i : nat) (r : LabeledRow) :
  last_of_session skey out i r →
  ∃ b, row r = row_of sqrt frame i b ∧ last_of_session key frame i b.
Proof.
  intros [Hr Hlast]. destruct (process_data_row _ _ Hr) as (b & Hb & Hrow).
  exists b. split; [done|]. split; [done|].
  intros j b' Hj Hb'. destruct (bars_of_rows j b' Hb') as (r' & Hr' & Hk).
  simpl in Hk. rewrite Hk. intros Heq. apply (Hlast j r' Hj Hr').
  by rewrite Heq, Hrow.
Qed.


End Frame.

End ProcessDataFacts.

(** ** The label of a session *)

Module LabelFacts.
Import Pandas Calculation Spec.
Import PandasFacts FloatFacts CalculationFacts.







(** The maximum and the minimum of a series are unique. *)
Lemma is_max_unique (xs : list Qc) (h h' : Qc) :
  is_max h xs → is_max h' xs → h = h'.
Proof. intros [Hin Hub] [Hin' Hub']. apply Qcle_antisym; auto. Qed.

Lemma is_min_unique (xs : list Qc) (l l' : Qc) :
  is_min l xs → is_min l' xs → l = l'.
Proof. intros [Hin Hlb] [Hin' Hlb']. apply Qcle_antisym; auto. Qed.

Lemma last_at_time_selected (df : list Row) (t : Z) (i : nat) (r : Row) :
  last_at_time df t i r → last (filter (λ r, time r = t) df) = Some r.
Proof.
  intros (Hi & Ht & Hlast).
  rewrite <- (take_drop_middle df i r Hi), filter_app, filter_cons.
  rewrite decide_True by done.
  rewrite (filter_none _ (drop (S i) df)).
  - apply last_snoc.
  - intros r' [j Hj]%list_elem_of_lookup. rewrite lookup_drop in Hj.
    eapply Hlast; [|done]. lia.
Qed.

Lemma last_at_time_check (df : list Row) (t : Z) (i : nat) (r : Row) :
  df !! i = Some r → (time r =? t) = true →
  forallb (λ r', negb (time r' =? t)) (drop (S i) df) = true →
  last_at_time df t i r.
Proof.
  intros Hi Ht%Z.eqb_eq Hall. do 2 (split; [done|]).
  intros j r' Hj Hr'. rewrite forallb_forall in Hall.
  assert (In r' (drop (S i) df)) as Hin.
  { apply list_elem_of_In, list_elem_of_lookup. exists (j - S i)%nat.
    rewrite lookup_drop. by replace (S i + (j - S i))%nat with j by lia. }
  by apply Hall, negb_true_iff, Z.eqb_neq in Hin.
Qed.

(** A frame with a bar at time [t] has a last such bar. *)
Lemma last_at_time_exists (df : list Row) (t : Z) (r : Row) :
  r ∈ df → time r = t → ∃ i sel, last_at_time df t i sel.
Proof.
  revert r. induction df as [|x df IH]; intros r Hin Ht; [by inversion Hin|].
  destruct (decide (Exists (λ r', time r' = t) df)) as [Hex|Hno].
  - apply Exists_exists in Hex as (r' & Hr' & Ht').
    destruct (IH r' Hr' Ht') as (i & sel & Hi & Hsel & Hlast).
    exists (S i), sel. do 2 (split; [done|]).
    intros [|j] r'' Hj Hr''; [lia|]. apply (Hlast j); [lia|done].
  - assert (time x = t) as Hx.
    { apply elem_of_cons in Hin as [<-|Hin]; [done|].
      destruct Hno. apply Exists_exists. eauto. }
    exists 0%nat, x. do 2 (split; [done|]).
    intros [|j] r' Hj Hr'; [lia|]. intros Ht'. apply Hno, Exists_exists.
    exists r'. split; [|done]. apply list_elem_of_lookup. eauto.
Qed.

Lemma label_none (df : list Row) (t : Z) :
  (∀ r, r ∈ df → time r ≠ t) → label_intraday_state df t = None.
Proof.
  intros Hno. unfold label_intraday_state. by rewrite filter_none.
Qed.

(** A label always belongs to a bar of the frame at the target time. *)
Lemma label_intraday_state_Some (df : list Row) (t : Z) (dt : Timestamp) (l : string) :
  label_intraday_state df t = Some (dt, l) →
  ∃ r, r ∈ df ∧ time r = t ∧ dt = datetime r.
Proof.
  unfold label_intraday_state.
  destruct (last _) as [sel|] eqn:Hlast; [|done].
  apply last_Some_elem_of, list_elem_of_filter in Hlast as [Ht Hin].
  intros Hres. exists sel. do 2 (split; [done|]).
  destruct (feqb _ _); [by injection Hres as <- _|].
  destruct (fgeb _ _); [by injection Hres as <- _|].
  destruct (fleb _ _); by injection Hres as <- _.
Qed.

Lemma elem_of_groupby_session (df : list Row) (g : Z * list Row) :
  g ∈ groupby_session df
  ↔ ∃ k, k ∈ (session <$> df) ∧ g = (k, filter (λ r, session r = k) df).
Proof.
  unfold groupby_session. rewrite list_elem_of_fmap.
  setoid_rewrite merge_sort_Permutation.
  setoid_rewrite elem_of_remove_dups. split.
  - intros (k & -> & Hk). by exists k.
  - intros (k & Hk & ->). by exists k.
Qed.

Section Labels.
Variable target_time : Z.

Local Abbreviation step :=
  (λ (labels : gmap Timestamp string) (g : Z * list Row),
     match label_intraday_state g.2 target_time with
     | None => labels
     | Some (bar_dt, label) => <[bar_dt := label]> labels
     end).

(** The dictionary holds the labels of the groups, as long as no two
    groups label the same timestamp differently. *)
Lemma labels_lookup (gs : list (Z * list Row)) (dt : Timestamp) (l : string) :
  (∀ g g' l l', g ∈ gs → g' ∈ gs →
     label_intraday_state g.2 target_time = Some (dt, l) →
     label_intraday_state g'.2 target_time = Some (dt, l') → l = l') →
  foldl step ∅ gs !! dt = Some l
  ↔ ∃ g, g ∈ gs ∧ label_intraday_state g.2 target_time = Some (dt, l).
Proof.
  induction gs as [|g gs IH] using rev_ind; intros Hfun.
  - simpl. rewrite lookup_empty. split; [done|].
    intros (g & Hg & _). by inversion Hg.
  - rewrite foldl_app. simpl.
    assert (foldl step ∅ gs !! dt = Some l
            ↔ ∃ g, g ∈ gs ∧ label_intraday_state g.2 target_time = Some (dt, l))
      as IH'.
    { apply IH. intros g1 g2 l1 l2 H1 H2. apply Hfun; apply elem_of_app; by left. }
    destruct (label_intraday_state g.2 target_time) as [[dt' l']|] eqn:Hg.
    + rewrite lookup_insert_Some, IH'. split.
      * intros [[-> ->]|[Hne (g0 & Hg0 & Hl0)]].
        -- exists g. split; [|done]. apply elem_of_app. right. left.
        -- exists g0. split; [|done]. apply elem_of_app. by left.
      * intros (g0 & [Hg0|Hg0%list_elem_of_singleton]%elem_of_app & Hl0).
        -- destruct (decide (dt' = dt)) as [->|Hne]; [|right; eauto].
           left. split; [done|].
           apply (Hfun g g0 l' l); [apply elem_of_app; right; left
                                   |apply elem_of_app; by left|done|done].
        -- subst g0. rewrite Hg in Hl0. injection Hl0 as -> ->. by left.
    + rewrite IH'. split.
      * intros (g0 & Hg0 & Hl0). exists g0. split; [|done].
        apply elem_of_app. by left.
      * intros (g0 & [Hg0|Hg0%list_elem_of_singleton]%elem_of_app & Hl0).
        -- eauto.
        -- subst g0. by rewrite Hg in Hl0.
Qed.

(** On a frame whose session column is a function of the index, the label
    stored for a timestamp is the label of the session of that timestamp. *)
Lemma target_time_labels_lookup (df : list Row) (r : Row) :
  (∀ r', r' ∈ df → session r' = assign_session (datetime r')) →
  r ∈ df →
  foldl step ∅ (groupby_session df) !! datetime r
  = match label_intraday_state
            (filter (λ r', session r' = session r) df) target_time with
    | Some (dt, l) => if decide (dt = datetime r) then Some l else None
    | None => None
    end.
Proof.
  intros Hkey Hr.
  assert (∀ g l, g ∈ groupby_session df →
                 label_intraday_state g.2 target_time = Some (datetime r, l) →
                 g = (session r, filter (λ r', session r' = session r) df))
    as Hgroup.
  { intros g l (k & _ & ->)%elem_of_groupby_session Hl. simpl in Hl.
    apply label_intraday_state_Some in Hl as (r' & Hr' & _ & Hdt).
    apply list_elem_of_filter in Hr' as [<- Hr'].
    by rewrite (Hkey r), (Hkey r'), Hdt by done. }
  apply option_eq. intros l. rewrite labels_lookup.
  - split.
    + intros (g & Hg & Hl). rewrite (Hgroup g l Hg Hl) in Hl. simpl in Hl.
      rewrite Hl. by rewrite decide_True.
    + destruct (label_intraday_state _ target_time) as [[dt l']|] eqn:Hl; [|done].
      case_decide as Hdt; [|done]. intros [= ->]. subst dt.
      exists (session r, filter (λ r', session r' = session r) df).
      split; [|exact Hl].
      apply elem_of_groupby_session. exists (session r). split; [|done].
      by apply list_elem_of_fmap_2.
  - intros g g' l1 l2 Hg Hg' Hl1 Hl2.
    rewrite (Hgroup g l1 Hg Hl1) in Hl1. rewrite (Hgroup g' l2 Hg' Hl2) in Hl2.
    simpl in *. congruence.
Qed.
End Labels.

Section Column.
Variable sqrt : Qc → Qc.
Variables (df : list Bar) (days_back target_time : Z).

(** STEP E on the returned frame: a row carries the label of its own
    session when it is the bar selected at the target time, and no label
    otherwise. *)
Lemma target_label_column (i : nat) (r : LabeledRow) :
  process_data sqrt df days_back target_time !! i = Some r →
  target_label r
  = match label_intraday_state
            (filter (λ r' : Row, session r' = session r)
                    (add_columns sqrt (filter_days_back df days_back)))
            target_time with
    | Some (dt, l) => if decide (dt = datetime r) then Some l else None
    | None => None
    end.
Proof.
  unfold process_data. rewrite list_lookup_fmap.
  destruct (add_columns _ _ !! i) as [r0|] eqn:Hr0; [|done].
  intros [= <-]. simpl. unfold target_time_labels.
  apply target_time_labels_lookup.
  - intros r' [j Hj]%list_elem_of_lookup.
    rewrite add_columns_lookup in Hj.
    destruct (_ !! j) as [b|]; [|done]. by injection Hj as <-.
  - apply list_elem_of_lookup. eauto.
Qed.
End Column.

End LabelFacts.

(** ** The backtest of one session and the streak statistics *)

Module TradeBufferFacts.
Import TradeBuffer Spec Examples.
Import PandasFacts FloatFacts.

Lemma first_at_time_head (df : list SessionRow) (t : string) (i : nat) (r : SessionRow) :
  first_at_time df t i r → head (filter (λ r, time_str r = t) df) = Some r.
Proof.
  intros (Hi & Ht & Hfirst).
  rewrite <- (take_drop_middle df i r Hi), filter_app, filter_cons.
  rewrite decide_True by done.
  rewrite (filter_none _ (take i df)); [done|].
  intros r' [j [Hj Hlt]]%elem_of_take. by eapply Hfirst.
Qed.

Lemma first_at_time_check (df : list SessionRow) (t : string) (i : nat) (r : SessionRow) :
  df !! i = Some r → bool_decide (time_str r = t) = true →
  forallb (λ r', negb (bool_decide (time_str r' = t))) (take i df) = true →
  first_at_time df t i r.
Proof.
  intros Hi Ht%bool_decide_eq_true Hall. do 2 (split; [done|]).
  intros j r' Hj Hr'. rewrite forallb_forall in Hall.
  assert (In r' (take i df)) as Hin.
  { apply list_elem_of_In, elem_of_take. eauto. }
  apply Hall, negb_true_iff in Hin. by apply bool_decide_eq_false in Hin.
Qed.


(** ** Sorting the results by date *)

Lemma insert_by_date_perm (x : Result) (l : list Result) :
  insert_by_date x l ≡ₚ x :: l.
Proof.
  induction l as [|y l IH]; simpl; [done|].
  destruct (_ <=? _); [done|]. by rewrite IH, Permutation_swap.
Qed.

Lemma sorted_perm (l : list Result) : sorted l ≡ₚ l.
Proof.
  unfold sorted. induction l as [|x l IH]; simpl; [done|].
  by rewrite insert_by_date_perm, IH.
Qed.

Lemma insert_by_date_sorted (x : Result) (l : list Result) :
  StronglySorted date_le l → StronglySorted date_le (insert_by_date x l).
Proof.
  induction 1 as [|y l Hl IH Hy]; simpl.
  - repeat constructor.
  - destruct (Z.leb_spec (res_session x) (res_session y)) as [Hxy|Hyx].
    + constructor; [by constructor|].
      constructor; [done|].
      eapply Forall_impl; [exact Hy|]. unfold date_le. intros z Hz. lia.
    + constructor; [done|].
      rewrite insert_by_date_perm. constructor; [unfold date_le; lia|done].
Qed.

Lemma sorted_sorted (l : list Result) : StronglySorted date_le (sorted l).
Proof.
  unfold sorted. induction l as [|x l IH]; simpl; [constructor|].
  by apply insert_by_date_sorted.
Qed.

(** The sort is stable: results of one date keep their order. *)
Lemma insert_by_date_stable (d : Z) (x : Result) (l : list Result) :
  filter (λ r, res_session r = d) (insert_by_date x l)
  = filter (λ r, res_session r = d) (x :: l).
Proof.
  induction l as [|y l IH]; simpl; [done|].
  destruct (Z.leb_spec (res_session x) (res_session y)) as [Hxy|Hyx]; [done|].
  rewrite filter_cons, IH, !filter_cons.
  repeat case_decide; try done; lia.
Qed.

Lemma sorted_stable (d : Z) (l : list Result) :
  filter (λ r, res_session r = d) (sorted l) = filter (λ r, res_session r = d) l.
Proof.
  unfold sorted. induction l as [|x l IH]; simpl; [done|].
  by rewrite insert_by_date_stable, !filter_cons, IH.
Qed.

(** ** The streak loop *)

Lemma runs_of_run (n : nat) (l : list bool) (ns : list nat) :
  (l = [] ∨ ∃ l', l = false :: l') → runs_of l ns →
  runs_of (replicate n true ++ l) (if (0 <? n)%nat then n :: ns else ns).
Proof.
  intros Hl Hruns. destruct n as [|n]; [done|].
  apply runs_true; [lia|done|done].
Qed.

(** From the state [(streaks, current_streak)] the loop appends the runs
    of the flags still to come, the first run being extended by the
    current streak. *)
Lemma streak_loop_runs (rs : list Result) (streaks : list nat) (current : nat) :
  ∃ ns,
    runs_of (replicate current true ++ (profitable_16 <$> rs)) ns
    ∧ (let '(s, c) := streak_loop streaks current rs in close_streak s c)
      = streaks ++ ns.
Proof.
  revert streaks current.
  induction rs as [|r rs IH]; intros streaks current; simpl.
  - exists (if (0 <? current)%nat then [current] else []). split.
    + apply (runs_of_run current [] []); [by left|constructor].
    + unfold close_streak. destruct (0 <? current)%nat; [done|].
      by rewrite app_nil_r.
  - destruct (profitable_16 r).
    + destruct (IH streaks (current + 1)%nat) as (ns & Hruns & Heq).
      exists ns. split; [|done].
      replace (current + 1)%nat with (S current) in Hruns by lia.
      by rewrite cons_middle, app_assoc, <- replicate_cons_app.
    + destruct (IH (close_streak streaks current) 0%nat) as (ns & Hruns & Heq).
      exists (if (0 <? current)%nat then current :: ns else ns). split.
      * apply runs_of_run; [right; eauto|]. by constructor.
      * rewrite Heq. unfold close_streak.
        destruct (0 <? current)%nat; [|done]. by rewrite <- app_assoc.
Qed.

Lemma winning_streaks_runs (rs : list Result) :
  runs_of (profitable_16 <$> rs) (winning_streaks rs).
Proof.
  destruct (streak_loop_runs rs [] 0%nat) as (ns & Hruns & Heq).
  unfold winning_streaks. by rewrite Heq.
Qed.

Lemma replicate_true_split (n m : nat) (l k : list bool) :
  (l = [] ∨ ∃ l', l = false :: l') → (k = [] ∨ ∃ k', k = false :: k') →
  replicate n true ++ l = replicate m true ++ k → n = m ∧ l = k.
Proof.
  intros Hl Hk. revert m. induction n as [|n IH]; intros [|m] Heq; simpl in *.
  - done.
  - destruct Hl as [->|[l' ->]]; discriminate.
  - destruct Hk as [->|[k' ->]]; discriminate.
  - injection Heq as Heq. destruct (IH m Heq) as [-> ->]. done.
Qed.

(** The runs of a list of flags are determined by the flags. *)
Lemma runs_of_functional (flags : list bool) (ns ns' : list nat) :
  runs_of flags ns → runs_of flags ns' → ns = ns'.
Proof.
  intros Hruns. revert ns'.
  induction Hruns as [|l ns Hruns IH|n l ns Hn Hl Hruns IH]; intros ns' Hruns'.
  - inversion Hruns' as [| |n' l' ns'' Hn' Hl' Hruns'' Heq]; [done|].
    destruct n'; [lia|discriminate].
  - inversion Hruns' as [|l' ns'' Hruns''|n' l' ns'' Hn' Hl' Hruns'' Heq]; subst.
    + by apply IH.
    + destruct n'; [lia|discriminate].
  - inversion Hruns' as [Heq|l' ns'' Hruns'' Heq|n' l' ns'' Hn' Hl' Hruns'' Heq].
    + destruct n; [lia|discriminate].
    + destruct n; [lia|discriminate].
    + destruct (replicate_true_split _ _ _ _ Hl' Hl Heq) as [-> ->].
      f_equal. by apply IH.
Qed.

(** Every run is a block of consecutive [true] flags. *)
Lemma runs_of_all_true (flags : list bool) (ns : list nat) (n : nat) :
  runs_of flags ns → n ∈ ns → ∃ i, all_true flags i n.
Proof.
  intros Hruns. induction Hruns as [|l ns Hruns IH|m l ns Hm Hl Hruns IH];
    intros Hn.
  - by inversion Hn.
  - destruct (IH Hn) as (i & Hi). exists (S i).
    intros [|j] Hj; [lia|]. simpl. apply Hi. lia.
  - apply elem_of_cons in Hn as [->|Hn].
    + exists 0%nat. intros j Hj.
      rewrite lookup_app_l by (rewrite length_replicate; lia).
      apply lookup_replicate_2. lia.
    + destruct (IH Hn) as (i & Hi). exists (m + i)%nat. intros j Hj.
      rewrite lookup_app_r by (rewrite length_replicate; lia).
      rewrite length_replicate. apply Hi. lia.
Qed.

(** Every block of consecutive [true] flags lies inside a run. *)
Lemma all_true_in_run (flags : list bool) (ns : list nat) (i n : nat) :
  runs_of flags ns → (0 < n)%nat → all_true flags i n →
  ∃ m, m ∈ ns ∧ (n ≤ m)%nat.
Proof.
  intros Hruns Hn. revert i.
  induction Hruns as [|l ns Hruns IH|m l ns Hm Hl Hruns IH]; intros i Hall.
  - specialize (Hall i ltac:(lia)). done.
  - destruct i as [|i].
    + specialize (Hall 0%nat ltac:(lia)). done.
    + apply (IH i). intros j Hj. apply (Hall (S j)). lia.
  - destruct (decide (i < m)%nat) as [Him|Him].
    + exists m. split; [left|].
      destruct (decide (n ≤ m)%nat) as [|Hnm]; [done|].
      specialize (Hall m ltac:(lia)).
      rewrite lookup_app_r, length_replicate, Nat.sub_diag in Hall
        by (rewrite length_replicate; lia).
      destruct Hl as [->|[l' ->]]; done.
    + destruct (IH (i - m)%nat) as (m' & Hm' & Hle).
      * intros j Hj. specialize (Hall (m + j)%nat ltac:(lia)).
        rewrite lookup_app_r, length_replicate in Hall
          by (rewrite length_replicate; lia).
        by replace (m + j - m)%nat with j in Hall by lia.
      * exists m'. split; [by right|done].
Qed.

Lemma list_max_is_max (x : nat) (xs : list nat) :
  list_max x xs ∈ x :: xs ∧ ∀ n, n ∈ x :: xs → (n ≤ list_max x xs)%nat.
Proof.
  unfold list_max. revert x. induction xs as [|y ys IH]; intros x; simpl.
  - split; [left|]. by intros n ->%list_elem_of_singleton.
  - destruct (IH (x `max` y)%nat) as [Hin Hub]. split.
    + apply elem_of_cons in Hin as [->|Hin]; [|by do 2 right].
      destruct (Nat.max_spec x y) as [[_ ->]|[_ ->]]; [right; left|left].
    + intros n [->|[->|Hn]%elem_of_cons]%elem_of_cons.
      * etrans; [|apply Hub; left]. lia.
      * etrans; [|apply Hub; left]. lia.
      * apply Hub. by right.
Qed.

Lemma list_min_is_min (x : nat) (xs : list nat) :
  list_min x xs ∈ x :: xs ∧ ∀ n, n ∈ x :: xs → (list_min x xs ≤ n)%nat.
Proof.
  unfold list_min. revert x. induction xs as [|y ys IH]; intros x; simpl.
  - split; [left|]. by intros n ->%list_elem_of_singleton.
  - destruct (IH (x `min` y)%nat) as [Hin Hlb]. split.
    + apply elem_of_cons in Hin as [->|Hin]; [|by do 2 right].
      destruct (Nat.min_spec x y) as [[_ ->]|[_ ->]]; [left|right; left].
    + intros n [->|[->|Hn]%elem_of_cons]%elem_of_cons.
      * etrans; [apply Hlb; left|]. lia.
      * etrans; [apply Hlb; left|]. lia.
      * apply Hlb. by right.
Qed.

(** The loop of [main] keeps the results of the sessions that have one. *)
Lemma collect_results_omap (sessions : list (Z * list SessionRow)) :
  collect_results sessions = omap (λ sd, analyze_session sd.1 sd.2) sessions.
Proof.
  unfold collect_results.
  enough (∀ acc, foldl (λ session_results sd,
                          match analyze_session sd.1 sd.2 with
                          | Some result => session_results ++ [result]
                          | None => session_results
                          end) acc sessions
                 = acc ++ omap (λ sd, analyze_session sd.1 sd.2) sessions)
    as Hgen by apply (Hgen []).
  induction sessions as [|sd sessions IH]; intros acc; simpl.
  - by rewrite app_nil_r.
  - rewrite IH. destruct (analyze_session sd.1 sd.2); [|done].
    by rewrite <- app_assoc.
Qed.

Lemma collect_results_skip (before after : list (Z * list SessionRow))
    (s : Z) (df : list SessionRow) :
  analyze_session s df = None →
  collect_results (before ++ (s, df) :: after) = collect_results (before ++ after).
Proof.
  intros Hnone. rewrite !collect_results_omap, !omap_app. simpl.
  by rewrite Hnone.
Qed.

End TradeBufferFacts.

(** * The session aggregator *)

Module Aggregator.
Import Pandas Calculation Spec Examples ExamplesMore.
Import PandasFacts FloatFacts CalculationFacts SessionFacts ProcessDataFacts.

(** C4. [assign_session] returns, for every timestamp, the date of the
    timestamp when its time of day is at or after 09:30 and the previous
    date otherwise; the rule relates every timestamp to exactly one
    session, and the session of a row of the returned frame is that of its
    own timestamp. *)
Theorem assign_session_rule :
  (∀ dt, (nine_thirty ≤ ts_time dt → assign_session dt = ts_date dt)
         ∧ (ts_time dt < nine_thirty → assign_session dt = ts_date dt - 1))
  ∧ (∀ dt, in_session dt (assign_session dt)
           ∧ ∀ s, in_session dt s → s = assign_session dt)
  ∧ (∀ sqrt df days_back target_time i (r : LabeledRow),
       process_data sqrt df days_back target_time !! i = Some r →
       session r = assign_session (datetime r)).
Proof.
  split; [|split].
  - intros dt. unfold assign_session, sub_days. simpl.
    destruct (Z.leb_spec nine_thirty (ts_time dt)); split; intros; try lia; done.
  - intros dt. unfold in_session, assign_session, sub_days. simpl.
    destruct (Z.leb_spec nine_thirty (ts_time dt)); split; try intros s; lia.
  - intros. by eapply process_data_session.
Qed.

Lemma assign_session_rule_witness :
  assign_session (mkTimestamp 20 (hms 9 30 0)) = 20
  ∧ assign_session (mkTimestamp 20 (hms 9 29 59)) = 19
  ∧ (∀ s, in_session (mkTimestamp 20 (hms 9 29 59)) s → s = 19)
  ∧ ∃ r : LabeledRow,
      process_data sample_sqrt sample_frame 10 (hms 12 30 0) !! 4%nat = Some r
      ∧ session r = 1.
Proof.
  destruct assign_session_rule as (Hrule & Hrel & Hrow).
  split; [|split; [|split]].
  - apply (proj1 (Hrule (mkTimestamp 20 (hms 9 30 0)))). vm_compute. discriminate.
  - apply (proj2 (Hrule (mkTimestamp 20 (hms 9 29 59)))). reflexivity.
  - apply (proj2 (Hrel (mkTimestamp 20 (hms 9 29 59)))).
  - eexists. split; [reflexivity|].
    apply (Hrow sample_sqrt sample_frame 10 (hms 12 30 0) 4%nat). reflexivity.
Defined.

(** C6. Every row whose time of day is strictly before the 09:30 cutoff
    carries [session_std] exactly 0, whichever session it belongs to. *)
Theorem session_std_zero_before_cutoff
    sqrt df days_back target_time i (r : LabeledRow) :
  process_data sqrt df days_back target_time !! i = Some r →
  time r < nine_thirty →
  session_std r = Fin 0%Qc.
Proof.
  intros (b & _ & ->)%process_data_row. simpl. intros Ht.
  by apply Z.ltb_lt in Ht as ->.
Qed.

Lemma session_std_zero_before_cutoff_witness :
  ∃ r : LabeledRow,
    process_data sample_sqrt sample_frame 10 (hms 12 30 0) !! 4%nat = Some r
    ∧ session r = 1 ∧ cum_count r = 5%nat
    ∧ session_std r = Fin 0%Qc.
Proof.
  eexists. split; [reflexivity|]. split; [reflexivity|]. split; [reflexivity|].
  apply (session_std_zero_before_cutoff
           sample_sqrt sample_frame 10 (hms 12 30 0) 4%nat);
    reflexivity.
Defined.



(** C9. On the first row of every session [session_std] is exactly 0: the
    standard deviation of one observation is NaN and is replaced by 0; hence
    both bands equal the VWAP there whenever the VWAP is a number. *)
Theorem first_row_of_session_has_no_spread
    sqrt df days_back target_time i (r : LabeledRow) :
  first_of_session (λ r : LabeledRow, session r)
    (process_data sqrt df days_back target_time) i r →
  std sqrt [typical_price r] = NaN
  ∧ session_std r = Fin 0%Qc
  ∧ ∀ v, VWAP r = Fin v → vwap_upper r = Fin v ∧ vwap_lower r = Fin v.
Proof.
  intros [Hr Hfirst]. split; [done|].
  destruct (first_of_session_bars _ _ _ _ _ _ (conj Hr Hfirst))
    as (b & Hrow & Hb & Hfirst').
  assert (session_so_far (filter_days_back df days_back) i b = [b]) as Hsofar
    by by apply (same_key_first (λ b, assign_session (datetime b))).
  assert (session_std r = Fin 0%Qc) as Hstd.
  { rewrite Hrow. cbn [session_std row_of]. rewrite Hsofar.
    by destruct (_ <? _). }
  split; [done|].
  intros v Hv. rewrite Hrow in Hv, Hstd |- *.
  cbn [vwap_upper vwap_lower VWAP row_of] in *.
  cbn [session_std row_of] in Hstd. rewrite Hstd, fmul_2_0, Hv.
  by rewrite fadd_0_r, fsub_0_r.
Qed.

Lemma first_row_of_session_has_no_spread_witness :
  ∃ r : LabeledRow,
    process_data sample_sqrt sample_frame 10 (hms 12 30 0) !! 5%nat = Some r
    ∧ session r = 2
    ∧ session_std r = Fin 0%Qc
    ∧ vwap_upper r = Fin (qc 32 3) ∧ vwap_lower r = Fin (qc 32 3).
Proof.
  eexists. split; [reflexivity|]. split; [reflexivity|].
  edestruct (first_row_of_session_has_no_spread
               sample_sqrt sample_frame 10 (hms 12 30 0) 5%nat)
    as (_ & Hstd & Hbands).
  - apply first_of_session_check; reflexivity.
  - split; [exact Hstd|]. apply Hbands. reflexivity.
Defined.






End Aggregator.
(** * Rounding in the bands and in the label *)

Module Rounding.
Import PrimFloat.
#[local] Set Warnings "-inexact-float".


(** The position is compared as the division returns it.  With the highest
    High 4.10, the lowest Low 1.14 and the Close 3.36 the quotient is
    rounded to 0.7499999999999999 and the label is neutral. *)
Lemma label_below_cut_point_in_binary64 :
  Binary64.position 4.10 1.14 3.36 = 0.7499999999999999%float
  ∧ Binary64.label 4.10 1.14 3.36 = "neutral"%string.
Proof. split; reflexivity. Qed.

End Rounding.
(** * The label engine *)

Module LabelEngine.
Import Pandas Calculation Spec Examples.
Import PandasFacts FloatFacts LabelFacts.



End LabelEngine.

(** * The trade backtester *)

Module Backtester.
Import TradeBuffer Spec Examples.
Import PandasFacts FloatFacts TradeBufferFacts.



(** C3. The streaks are computed on the results sorted by ascending session
    date: they are the lengths of the maximal runs of results that are
    profitable at the second checkpoint, a run ending at any result that is
    not (every streak is a block of consecutive profitable results, and every
    such block lies inside a streak); sessions for which [analyze_session]
    gives no result are not in the sequence.  The function returns the longest streak, the average and the
    shortest, in this order; for the flags true, true, false, true these are
    2, 1.5 and 1. *)
Theorem winning_streaks_of_sorted_results (session_results : list Result) :
  let sorted_results := sorted session_results in
  let flags := profitable_16 <$> sorted_results in
  let streaks := winning_streaks sorted_results in
  (sorted_results ≡ₚ session_results ∧ StronglySorted date_le sorted_results)
  ∧ (runs_of flags streaks ∧ ∀ ns, runs_of flags ns → ns = streaks)
  ∧ ((∀ n, n ∈ streaks → ∃ i, all_true flags i n)
     ∧ ∀ i n, (0 < n)%nat → all_true flags i n →
         ∃ m, m ∈ streaks ∧ (n ≤ m)%nat)
  ∧ (streaks ≠ [] →
     ∃ longest shortest,
       compute_winning_streaks session_results
       = (longest,
          (nat_to_Qc (sum_list streaks) / nat_to_Qc (length streaks))%Qc,
          shortest)
       ∧ longest ∈ streaks ∧ (∀ n, n ∈ streaks → (n ≤ longest)%nat)
       ∧ shortest ∈ streaks ∧ (∀ n, n ∈ streaks → (shortest ≤ n)%nat))
  ∧ (flags = [true; true; false; true] →
     compute_winning_streaks session_results = (2%nat, qc 3 2, 1%nat))
  ∧ (∀ sessions,
       collect_results sessions
       = omap (λ sd, analyze_session sd.1 sd.2) sessions)
  ∧ (∀ before after s df,
       analyze_session s df = None →
       collect_results (before ++ (s, df) :: after)
       = collect_results (before ++ after)).
Proof.
  intros sorted_results flags streaks.
  pose proof (winning_streaks_runs sorted_results) as Hruns.
  fold flags streaks in Hruns.
  split; [split; [apply sorted_perm|apply sorted_sorted]|].
  split; [split; [done|]|].
  { intros ns Hns. by apply (runs_of_functional flags). }
  split; [split|].
  { intros n Hn. by apply (runs_of_all_true flags streaks). }
  { intros i n Hn Hall. by apply (all_true_in_run flags streaks i n). }
  split; [|split; [|split]].
  - intros Hne. unfold compute_winning_streaks.
    fold sorted_results streaks.
    destruct streaks as [|s ss]; [done|].
    destruct (list_max_is_max s ss) as [Hmax Hub].
    destruct (list_min_is_min s ss) as [Hmin Hlb].
    by exists (list_max s ss), (list_min s ss).
  - intros Hflags.
    assert (streaks = [2; 1]%nat) as Hstreaks.
    { symmetry. apply (runs_of_functional flags); [|done]. rewrite Hflags.
      apply (runs_true 2 [false; true] [1%nat]); [lia|right; eauto|].
      apply runs_false.
      apply (runs_true 1 [] []); [lia|by left|constructor]. }
    unfold compute_winning_streaks. fold sorted_results streaks.
    rewrite Hstreaks. repeat f_equal; apply Qc_is_canon; reflexivity.
  - apply collect_results_omap.
  - intros. by apply collect_results_skip.
Qed.

Lemma winning_streaks_of_sorted_results_witness :
  compute_winning_streaks
    [ sample_result 4 true; sample_result 1 true;
      sample_result 3 false; sample_result 2 true ]
  = (2%nat, qc 3 2, 1%nat)
  ∧ collect_results [(7, short_session); (8, cut_session); (9, long_session)]
    = collect_results [(7, short_session); (9, long_session)]
  ∧ (profitable_16 <$> collect_results
       [(7, short_session); (8, cut_session); (9, long_session)])
    = [true; true].
Proof.
  destruct (winning_streaks_of_sorted_results
              [ sample_result 4 true; sample_result 1 true;
                sample_result 3 false; sample_result 2 true ])
    as (_ & _ & _ & _ & Hexample & _ & Hskip).
  split; [apply Hexample; reflexivity|]. split; [|reflexivity].
  apply (Hskip [(7, short_session)] [(9, long_session)] 8 cut_session).
  reflexivity.
Defined.

(** C10. With no result at all, or with no result that is profitable at
    the second checkpoint, [compute_winning_streaks] returns 0 for the
    longest streak, the average and the shortest streak. *)
Theorem no_winning_streak (session_results : list Result) :
  (∀ r, r ∈ session_results → profitable_16 r = false) →
  compute_winning_streaks session_results = (0%nat, 0%Qc, 0%nat).
Proof.
  intros Hnone.
  assert (∀ rs, (∀ r, r ∈ rs → profitable_16 r = false) →
                streak_loop [] 0%nat rs = ([], 0%nat)) as Hloop.
  { induction rs as [|r rs IH]; intros Hrs; simpl; [done|].
    rewrite (Hrs r) by left. apply IH. intros r' Hr'. apply Hrs. by right. }
  unfold compute_winning_streaks, winning_streaks.
  rewrite Hloop; [done|].
  intros r Hr. apply Hnone. by rewrite <- (sorted_perm session_results).
Qed.

Lemma no_winning_streak_witness :
  compute_winning_streaks [] = (0%nat, 0%Qc, 0%nat)
  ∧ compute_winning_streaks [sample_result 2 false; sample_result 1 false]
    = (0%nat, 0%Qc, 0%nat).
Proof.
  split.
  - apply no_winning_streak. intros r Hr. by inversion Hr.
  - apply no_winning_streak.
    intros r Hr. repeat (apply elem_of_cons in Hr as [->|Hr]; [reflexivity|]).
    by inversion Hr.
Defined.

End Backtester.

(** * More on the session aggregator *)

Module AggregatorMore.
Import Pandas Calculation Spec SpecMore Examples.
Import PandasFacts FloatFacts CalculationFacts SessionFacts ProcessDataFacts.

(** ** STEP B *)

Lemma ts_leb_refl (a : Timestamp) : ts_leb a a = true.
Proof.
  unfold ts_leb. rewrite Z.eqb_refl, Z.leb_refl. by rewrite orb_true_r.
Qed.

Lemma ts_leb_spec (a b : Timestamp) :
  ts_leb a b = true
  ↔ ts_date a < ts_date b ∨ (ts_date a = ts_date b ∧ ts_time a ≤ ts_time b).
Proof.
  unfold ts_leb.
  rewrite orb_true_iff, andb_true_iff, Z.ltb_lt, Z.eqb_eq, Z.leb_le. done.
Qed.

Lemma ts_leb_trans (a b c : Timestamp) :
  ts_leb a b = true → ts_leb b c = true → ts_leb a c = true.
Proof. rewrite !ts_leb_spec. lia. Qed.

Lemma ts_leb_antisym (a b : Timestamp) :
  ts_leb a b = true → ts_leb b a = true → a = b.
Proof.
  rewrite !ts_leb_spec. destruct a as [da ta], b as [db tb]. simpl.
  intros H1 H2. f_equal; lia.
Qed.

Lemma ts_leb_total (a b : Timestamp) : ts_leb a b = true ∨ ts_leb b a = true.
Proof. rewrite !ts_leb_spec. lia. Qed.

(** The fold of [index_max] keeps the largest timestamp met so far. *)
Lemma index_max_fold (df : list Bar) (m : Timestamp) :
  let step := λ (acc : option Timestamp) (b : Bar),
    match acc with
    | None => Some (datetime b)
    | Some m => Some (if ts_leb m (datetime b) then datetime b else m)
    end in
  ∃ m', foldl step (Some m) df = Some m'
        ∧ ts_leb m m' = true
        ∧ (∀ b, b ∈ df → ts_leb (datetime b) m' = true)
        ∧ (m' = m ∨ ∃ b, b ∈ df ∧ datetime b = m').
Proof.
  intros step. revert m. induction df as [|x df IH]; intros m; simpl.
  - exists m. split; [done|]. split; [apply ts_leb_refl|].
    split; [by inversion 1|by left].
  - destruct (IH (if ts_leb m (datetime x) then datetime x else m))
      as (m' & Heq & Hle & Hub & Hin).
    exists m'. split; [done|].
    destruct (ts_leb m (datetime x)) eqn:Hmx.
    + split; [by eapply ts_leb_trans|]. split.
      * intros b [->|Hb]%elem_of_cons; [done|by apply Hub].
      * right. destruct Hin as [->|(b & Hb & Hdt)].
        -- exists x. split; [left|done].
        -- exists b. split; [by right|done].
    + split; [done|]. split.
      * intros b [->|Hb]%elem_of_cons; [|by apply Hub].
        destruct (ts_leb_total m (datetime x)) as [Hc|Hc]; [congruence|].
        by eapply ts_leb_trans.
      * destruct Hin as [->|(b & Hb & Hdt)]; [by left|].
        right. exists b. split; [by right|done].
Qed.

(** [index_max] is the largest index of a frame that is not empty. *)
Lemma index_max_spec (df : list Bar) :
  df ≠ [] →
  ∃ m, index_max df = Some m
       ∧ (∃ b, b ∈ df ∧ datetime b = m)
       ∧ ∀ b, b ∈ df → ts_leb (datetime b) m = true.
Proof.
  destruct df as [|x df]; [done|]. intros _. unfold index_max. simpl.
  destruct (index_max_fold df (datetime x)) as (m & Heq & Hle & Hub & Hin).
  exists m. split; [exact Heq|]. split.
  - destruct Hin as [->|(b & Hb & Hdt)].
    + exists x. split; [left|done].
    + exists b. split; [by right|done].
  - intros b [->|Hb]%elem_of_cons; [done|by apply Hub].
Qed.

(** X7. Within the range of days that pandas can represent, STEP B keeps
    the bars of the last [days_back] days, in their order: a bar is kept
    exactly when it is not older than [days_back] days before the latest
    timestamp, and with [days_back >= 0] a bar with the latest timestamp is
    kept. *)
Theorem filter_days_back_window (df : list Bar) (days_back : Z) (latest : Bar) :
  timedelta_days days_back →
  timestamp_date (ts_date (datetime latest) - days_back) →
  latest ∈ df →
  (∀ b, b ∈ df → ts_leb (datetime b) (datetime latest) = true) →
  (∀ b, b ∈ filter_days_back df days_back
        ↔ b ∈ df ∧ ts_leb (sub_days (datetime latest) days_back) (datetime b) = true)
  ∧ (0 ≤ days_back → latest ∈ filter_days_back df days_back)
  ∧ filter_days_back df days_back `sublist_of` df.
Proof.
  intros _ _ Hlatest Hub.
  destruct (index_max_spec df) as (m & Hm & (b0 & Hb0 & Hdt0) & Hub').
  { intros ->. by inversion Hlatest. }
  assert (m = datetime latest) as ->.
  { apply ts_leb_antisym; [|by apply Hub'].
    rewrite <- Hdt0. by apply Hub. }
  assert (∀ b, b ∈ filter_days_back df days_back
               ↔ b ∈ df ∧ ts_leb (sub_days (datetime latest) days_back)
                                 (datetime b) = true) as Hiff.
  { intros b. unfold filter_days_back. rewrite Hm, list_elem_of_filter.
    tauto. }
  split; [done|]. split.
  - intros Hd. apply Hiff. split; [done|].
    apply ts_leb_spec. unfold sub_days. simpl. lia.
  - unfold filter_days_back. rewrite Hm. apply sublist_filter.
Qed.

Lemma filter_days_back_window_witness :
  sample_bar 2 (hms 9 30 0) 12 9 11 3 ∈ filter_days_back sample_frame 0
  ∧ length (filter_days_back sample_frame 0) = 1%nat.
Proof.
  split; [|reflexivity].
  apply (filter_days_back_window sample_frame 0
           (sample_bar 2 (hms 9 30 0) 12 9 11 3)); [| | |..|done].
  - unfold timedelta_days. lia.
  - unfold timestamp_date. simpl. lia.
  - do 5 right. left.
  - intros b Hb.
    repeat (apply elem_of_cons in Hb as [->|Hb]; [reflexivity|]).
    by inversion Hb.
Defined.

(** ** The bands *)

Lemma sample_sqrt_nonneg (x : Qc) : (0 ≤ sample_sqrt x)%Qc.
Proof.
  unfold sample_sqrt, Qcle. cbn [this Q2Qc]. rewrite !Qred_correct.
  unfold Qle. cbn [Qnum Qden]. rewrite Z.mul_0_l, Z.mul_1_r.
  apply Z.sqrt_nonneg.
Qed.

Lemma session_std_nonneg sqrt df days_back target_time i (r : LabeledRow) :
  (∀ x, (0 ≤ sqrt x)%Qc) →
  process_data sqrt df days_back target_time !! i = Some r →
  ∃ s, session_std r = Fin s ∧ (0 ≤ s)%Qc.
Proof.
  intros Hsqrt (b & _ & ->)%process_data_row. cbn [session_std row_of].
  destruct (_ <? _); [by eexists|].
  unfold std. destruct (_ <? _)%nat; by eexists.
Qed.

(** X10. With a square root that is never negative, [session_std] is a
    non-negative number on every row, and where the VWAP is a number the
    bands are numbers with the lower band at or below the VWAP and the upper
    band at or above it. *)
Theorem bands_enclose_vwap sqrt df days_back target_time i (r : LabeledRow) (v : Qc) :
  (∀ x, (0 ≤ sqrt x)%Qc) →
  process_data sqrt df days_back target_time !! i = Some r →
  VWAP r = Fin v →
  ∃ s lo up,
    session_std r = Fin s ∧ (0 ≤ s)%Qc
    ∧ vwap_lower r = Fin lo ∧ vwap_upper r = Fin up
    ∧ (lo ≤ v ≤ up)%Qc.
Proof.
  intros Hsqrt Hr Hv.
  destruct (session_std_nonneg _ _ _ _ _ _ Hsqrt Hr) as (s & Hs & Hpos).
  apply process_data_row in Hr as (b & _ & Hrow).
  rewrite Hrow in Hs, Hv |- *.
  cbn [vwap_upper vwap_lower VWAP session_std row_of] in *.
  rewrite Hs, Hv. cbn [fmul fadd fsub fneg].
  assert (0 ≤ qc 2 1 * s)%Qc as H2s by by apply Qcmult_nonneg_nonneg.
  exists s. do 2 eexists. do 4 (split; [done|]). split.
  - rewrite <- (Qcplus_0_r v) at 2. apply Qcplus_le_mono_l.
    by apply Qcopp_le_compat in H2s.
  - rewrite <- (Qcplus_0_r v) at 1. by apply Qcplus_le_mono_l.
Qed.

Lemma bands_enclose_vwap_witness :
  ∃ (r : LabeledRow) (lo up : Qc),
    process_data sample_sqrt sample_frame 10 (hms 12 30 0) !! 3%nat = Some r
    ∧ vwap_lower r = Fin lo ∧ vwap_upper r = Fin up
    ∧ (lo ≤ qc 41 3 ≤ up)%Qc.
Proof.
  destruct (process_data sample_sqrt sample_frame 10 (hms 12 30 0) !! 3%nat)
    as [r|] eqn:Hr; [|vm_compute in Hr; discriminate].
  destruct (bands_enclose_vwap sample_sqrt sample_frame 10 (hms 12 30 0)
              3%nat r (qc 41 3) sample_sqrt_nonneg Hr)
    as (s & lo & up & _ & _ & Hlo & Hup & Hb).
  - vm_compute in Hr. injection Hr as <-. apply Fin_by_value. reflexivity.
  - exists r, lo, up. done.
Defined.

End AggregatorMore.

(** * The count of consecutive down days *)

Module DownDaysFacts.
Import Pandas Calculation DownDays Spec SpecMore Examples.
Import PandasFacts TradeBufferFacts.

Lemma changed_from_cons (p : option bool) (f : bool) (fs : list bool) :
  changed_from p (f :: fs)
  = bool_decide (Some f ≠ p) :: changed_from (Some f) fs.
Proof. reflexivity. Qed.

Lemma down_ids_from_false (p : option bool) (acc : nat) (l : list bool) :
  down_ids_from p acc (false :: l)
  = down_ids_from (Some false)
      (acc + if bool_decide (Some false ≠ p) then 1 else 0)%nat l.
Proof.
  unfold down_ids_from. rewrite changed_from_cons.
  cbn [cumsum_bool zip_with]. by rewrite filter_cons, decide_False.
Qed.

Lemma down_ids_from_true (p : option bool) (acc : nat) (l : list bool) :
  down_ids_from p acc (true :: l)
  = (acc + if bool_decide (Some true ≠ p) then 1 else 0)%nat
    :: down_ids_from (Some true)
         (acc + if bool_decide (Some true ≠ p) then 1 else 0)%nat l.
Proof.
  unfold down_ids_from. rewrite changed_from_cons.
  cbn [cumsum_bool zip_with]. by rewrite filter_cons, decide_True.
Qed.

(** Inside a block of down days the group number stays the same. *)
Lemma down_ids_from_block (n acc : nat) (l : list bool) :
  down_ids_from (Some true) acc (replicate n true ++ l)
  = replicate n acc ++ down_ids_from (Some true) acc l.
Proof.
  induction n as [|n IH]; [done|].
  cbn [replicate app]. rewrite down_ids_from_true.
  rewrite bool_decide_false by (by intros []). rewrite Nat.add_0_r.
  by rewrite IH.
Qed.

Lemma remove_dups_block (n k : nat) (rest : list nat) :
  (0 < n)%nat → k ∉ rest →
  remove_dups (replicate n k ++ rest) = k :: remove_dups rest.
Proof.
  intros Hn Hk. destruct n as [|n]; [lia|]. clear Hn.
  induction n as [|n IH].
  - simpl. case_decide; done.
  - change (replicate (S (S n)) k ++ rest)
      with (k :: (replicate (S n) k ++ rest)).
    cbn [remove_dups]. case_decide as Hin; [exact IH|].
    destruct Hin. left.
Qed.

(** A first block of [n] rows of the smallest key gives the first size. *)
Lemma groupby_size_block (n k : nat) (rest : list nat) :
  (0 < n)%nat → Forall (λ k', k < k')%nat rest →
  groupby_size (replicate n k ++ rest) = n :: groupby_size rest.
Proof.
  intros Hn Hrest. rewrite Forall_forall in Hrest.
  assert (k ∉ rest) as Hk by (intros Hin%Hrest; lia).
  unfold groupby_size. rewrite remove_dups_block by done.
  assert (merge_sort le (k :: remove_dups rest)
          = k :: merge_sort le (remove_dups rest)) as ->.
  { apply (StronglySorted_unique le).
    - apply StronglySorted_merge_sort; apply _.
    - constructor; [apply StronglySorted_merge_sort; apply _|].
      apply Forall_forall. intros k' Hk'.
      rewrite merge_sort_Permutation, elem_of_remove_dups in Hk'.
      apply Hrest in Hk'. lia.
    - by rewrite !merge_sort_Permutation. }
  rewrite fmap_cons. f_equal.
  - rewrite filter_app, length_app, (filter_none _ rest)
      by (intros x Hx%Hrest; lia).
    rewrite Nat.add_0_r.
    clear. induction n as [|n IH]; [done|].
    cbn [replicate]. rewrite filter_cons, decide_True by done.
    simpl. by rewrite IH.
  - apply list_fmap_ext. intros i k' Hi.
    assert (k' ∈ rest) as Hk'.
    { rewrite <- elem_of_remove_dups, <- (merge_sort_Permutation le).
      apply list_elem_of_lookup. eauto. }
    rewrite filter_app, (filter_none _ (replicate n k)); [done|].
    intros x [-> _]%elem_of_replicate. apply Hrest in Hk'. lia.
Qed.

(** The sizes of the groups of down days are the runs of the flags. *)
Lemma down_ids_runs (flags : list bool) (ns : list nat) :
  runs_of flags ns →
  ∀ p acc, (p = Some true → head flags ≠ Some true) →
    groupby_size (down_ids_from p acc flags) = ns
    ∧ Forall (λ k, acc < k)%nat (down_ids_from p acc flags).
Proof.
  induction 1 as [|l ns Hruns IH|n l ns Hn Hl Hruns IH]; intros p acc Hp.
  - done.
  - rewrite down_ids_from_false.
    destruct (IH (Some false)
                 (acc + if bool_decide (Some false ≠ p) then 1 else 0)%nat)
      as [Hsize Hall]; [done|].
    split; [done|].
    eapply Forall_impl; [exact Hall|]. simpl. intros k Hk.
    destruct (bool_decide _); lia.
  - destruct n as [|n]; [lia|].
    assert (p ≠ Some true) as Hp'.
    { intros ->. by apply Hp. }
    cbn [replicate app]. rewrite down_ids_from_true.
    rewrite bool_decide_true by congruence.
    rewrite down_ids_from_block.
    destruct (IH (Some true) (acc + 1)%nat) as [Hsize Hall].
    { intros _. destruct Hl as [->|[l' ->]]; done. }
    split.
    + rewrite (app_comm_cons _ _ (acc + 1)%nat).
      change ((acc + 1)%nat :: replicate n (acc + 1)%nat)
        with (replicate (S n) (acc + 1)%nat).
      rewrite groupby_size_block by (done || lia). by rewrite Hsize.
    + constructor; [lia|]. apply Forall_app. split.
      * apply Forall_forall. intros k [-> _]%elem_of_replicate. lia.
      * eapply Forall_impl; [exact Hall|]. simpl. lia.
Qed.

Lemma runs_of_exists (flags : list bool) : ∃ ns, runs_of flags ns.
Proof.
  destruct (streak_loop_runs (sample_result 0 <$> flags) [] 0%nat)
    as (ns & Hruns & _).
  exists ns. rewrite <- list_fmap_compose in Hruns. simpl in Hruns.
  by rewrite list_fmap_id in Hruns.
Qed.

Lemma down_groups_runs (flags : list bool) : runs_of flags (down_groups flags).
Proof.
  destruct (runs_of_exists flags) as [ns Hruns].
  destruct (down_ids_runs flags ns Hruns None 0%nat) as [Hsize _]; [done|].
  unfold down_groups, group_ids, changed, shift.
  unfold down_ids_from, changed_from in Hsize. by rewrite Hsize.
Qed.

Lemma max_of_sizes_spec (sizes : list nat) :
  (∀ n, n ∈ sizes → (n ≤ max_of_sizes sizes)%nat)
  ∧ (sizes = [] ∧ max_of_sizes sizes = 0%nat ∨ max_of_sizes sizes ∈ sizes).
Proof.
  destruct sizes as [|s ss]; simpl.
  - split; [by inversion 1|by left].
  - destruct (list_max_is_max s ss) as [Hin Hub]. split; [done|by right].
Qed.

Lemma daily_dates (df : list Row) :
  d_date <$> daily df = merge_sort Z.le (remove_dups (date <$> df)).
Proof.
  unfold daily. rewrite <- list_fmap_compose. simpl. apply list_fmap_id.
Qed.

(** X15. The frame [daily] has one row for every calendar date of the
    frame, in ascending order, with the Open of the first bar and the Close
    of the last bar of that date; and the number of consecutive down days
    that [process_data] prints is the length of the longest block of
    consecutive down days in it: no block of down days is longer, and a
    block of that length exists. *)
Theorem max_consecutive_down_longest_block (df : list Row) :
  let days := daily df in
  let flags := down_day days in
  (StronglySorted Z.le (d_date <$> days) ∧ NoDup (d_date <$> days)
   ∧ ∀ k, k ∈ (d_date <$> days) ↔ k ∈ (date <$> df))
  ∧ (∀ d, d ∈ days →
       ∃ first_bar last_bar : Row,
         head (filter (λ r, date r = d_date d) df) = Some first_bar
         ∧ last (filter (λ r, date r = d_date d) df) = Some last_bar
         ∧ d_open d = Open first_bar ∧ d_close d = Close last_bar)
  ∧ (∀ i n, all_true flags i n → (n ≤ max_consecutive_down df)%nat)
  ∧ (∃ i, all_true flags i (max_consecutive_down df)).
Proof.
  intros days flags.
  pose proof (down_groups_runs flags) as Hruns.
  destruct (max_of_sizes_spec (down_groups flags)) as [Hub Hmax].
  split; [|split; [|split]].
  - subst days. rewrite daily_dates. split; [|split].
    + apply StronglySorted_merge_sort; apply _.
    + rewrite merge_sort_Permutation. apply NoDup_remove_dups.
    + intros k. by rewrite merge_sort_Permutation, elem_of_remove_dups.
  - intros d (k & -> & Hk)%list_elem_of_fmap. simpl.
    rewrite merge_sort_Permutation, elem_of_remove_dups in Hk.
    apply list_elem_of_fmap in Hk as (r & -> & Hr).
    assert (r ∈ filter (λ r', date r' = date r) df) as Hin
      by by apply list_elem_of_filter.
    destruct (filter (λ r', date r' = date r) df) as [|x g] eqn:Hg;
      [by inversion Hin|].
    destruct (last (x :: g)) as [y|] eqn:Hy.
    + exists x, y. done.
    + by apply last_None in Hy.
  - intros i n Hall. destruct n as [|n]; [lia|].
    destruct (all_true_in_run flags _ i (S n) Hruns ltac:(lia) Hall)
      as (m & Hm & Hle).
    etrans; [exact Hle|]. by apply Hub.
  - unfold max_consecutive_down. fold days flags.
    destruct Hmax as [[_ ->]|Hin].
    + exists 0%nat. intros j Hj. lia.
    + by apply (runs_of_all_true flags (down_groups flags)).
Qed.

End DownDaysFacts.

(** * More on the label engine *)

Module LabelEngineMore.
Import Pandas Calculation Spec SpecMore Examples.
Import PandasFacts FloatFacts CalculationFacts ProcessDataFacts LabelFacts.

Lemma label_intraday_state_selected (df : list Row) (t : Z) (sel : Row) :
  last (filter (λ r, time r = t) df) = Some sel →
  ∃ l, label_intraday_state df t = Some (datetime sel, l) ∧ l ∈ labels.
Proof.
  intros Hlast. unfold label_intraday_state, labels. rewrite Hlast.
  destruct (feqb _ _); [eexists; split; [done|set_solver]|].
  destruct (fgeb _ _); [eexists; split; [done|set_solver]|].
  destruct (fleb _ _); eexists; (split; [done|set_solver]).
Qed.

(** X11. [label_intraday_state] returns nothing exactly when the frame has
    no bar at the target time; what it returns otherwise is the index of the
    last bar at the target time with one of the labels high, low and
    neutral. *)
Theorem label_intraday_state_result (df : list Row) (t : Z) :
  (label_intraday_state df t = None ↔ ∀ r, r ∈ df → time r ≠ t)
  ∧ (∀ dt l, label_intraday_state df t = Some (dt, l) →
       l ∈ labels
       ∧ ∃ i sel, last_at_time df t i sel ∧ dt = datetime sel).
Proof.
  split.
  - split; [|apply label_none].
    intros Hnone r Hr Ht.
    destruct (last_at_time_exists df t r Hr Ht) as (i & sel & Hsel).
    apply last_at_time_selected in Hsel as Hlast.
    destruct (label_intraday_state_selected _ _ _ Hlast) as (l & Hl & _).
    congruence.
  - intros dt l Hres.
    destruct (label_intraday_state_Some _ _ _ _ Hres) as (r & Hr & Ht & _).
    destruct (last_at_time_exists df t r Hr Ht) as (i & sel & Hsel).
    apply last_at_time_selected in Hsel as Hlast.
    destruct (label_intraday_state_selected _ _ _ Hlast) as (l' & Hl & Hin).
    rewrite Hres in Hl. injection Hl as -> ->. eauto.
Qed.

(** X12. The label of a session is computed from the bars whose time of
    day is at or before the target time and from nothing else: two frames
    with the same such bars get the same result. *)
Theorem label_ignores_later_bars (df df' : list Row) (t : Z) :
  filter (λ r, time r ≤ t) df = filter (λ r, time r ≤ t) df' →
  label_intraday_state df t = label_intraday_state df' t.
Proof.
  intros Heq.
  assert (∀ d : list Row,
            filter (λ r, time r = t) d
            = filter (λ r, time r = t) (filter (λ r, time r ≤ t) d)) as Htarget.
  { intros d. rewrite list_filter_filter. apply list_filter_iff.
    intros r. lia. }
  unfold label_intraday_state.
  by rewrite (Htarget df), (Htarget df'), Heq.
Qed.

Lemma label_ignores_later_bars_witness :
  label_intraday_state sample_session (hms 12 30 0)
  = label_intraday_state (take 3 sample_session) (hms 12 30 0).
Proof. apply label_ignores_later_bars. reflexivity. Defined.

Section Column.
Variable sqrt : Qc → Qc.
Variables (df : list Bar) (days_back target_time : Z).

Local Abbreviation out := (process_data sqrt df days_back target_time).
Local Abbreviation frame := (add_columns sqrt (filter_days_back df days_back)).

Lemma add_columns_time (r : Row) :
  r ∈ frame → time r = ts_time (datetime r)
              ∧ session r = assign_session (datetime r).
Proof.
  intros [j Hj]%list_elem_of_lookup. rewrite add_columns_lookup in Hj.
  destruct (_ !! j) as [b|]; [|done]. by injection Hj as <-.
Qed.

Lemma out_row_in_frame (i : nat) (r : LabeledRow) :
  out !! i = Some r → row r ∈ frame.
Proof.
  unfold process_data. rewrite list_lookup_fmap.
  destruct (frame !! i) as [r0|] eqn:Hr0; [|done].
  intros [= <-]. simpl. apply list_elem_of_lookup. eauto.
Qed.

(** X13. In the returned frame a row carries a label exactly when
    [label_intraday_state], run on the rows of its session, selects its
    timestamp, and the label is the one computed there.  So a labelled row
    lies at the target time, its label is high, low or neutral, and two
    labelled rows of one session have the same timestamp and label. *)
Theorem target_label_placement (i : nat) (r : LabeledRow) (l : string) :
  out !! i = Some r →
  let session_df := filter (λ r' : Row, session r' = session r) frame in
  (target_label r = Some l
   ↔ label_intraday_state session_df target_time = Some (datetime r, l))
  ∧ (target_label r = Some l →
     time r = target_time ∧ l ∈ labels
     ∧ ∀ j (r' : LabeledRow) l',
         out !! j = Some r' → session r' = session r →
         target_label r' = Some l' →
         datetime r' = datetime r ∧ l' = l).
Proof.
  intros Hr session_df.
  pose proof (target_label_column sqrt df days_back target_time i r Hr) as Hcol.
  fold session_df in Hcol.
  assert (target_label r = Some l
          ↔ label_intraday_state session_df target_time = Some (datetime r, l))
    as Hiff.
  { rewrite Hcol.
    destruct (label_intraday_state session_df target_time) as [[dt l0]|];
      [|done].
    case_decide as Hdt; [subst dt|]; split; congruence. }
  split; [done|].
  intros Hl%Hiff.
  destruct (label_intraday_state_result session_df target_time) as [_ Hres].
  destruct (Hres _ _ Hl) as (Hin & k & sel & (Hk & Ht & _) & Hdt).
  split; [|split; [done|]].
  - assert (sel ∈ frame) as Hsel.
    { assert (sel ∈ session_df) as Hs by (apply list_elem_of_lookup; eauto).
      by apply list_elem_of_filter in Hs as [_ ?]. }
    destruct (add_columns_time sel Hsel) as [Hts _].
    destruct (add_columns_time r (out_row_in_frame i r Hr)) as [Htr _].
    by rewrite Htr, Hdt, <- Hts.
  - intros j r' l' Hr' Hsess Hl'.
    pose proof (target_label_column sqrt df days_back target_time j r' Hr')
      as Hcol'.
    rewrite Hsess in Hcol'. fold session_df in Hcol'.
    rewrite Hl in Hcol'. rewrite Hl' in Hcol'.
    case_decide as Hdt'; [|done]. by injection Hcol' as ->.
Qed.

End Column.

Lemma target_label_placement_witness :
  ∃ r : LabeledRow,
    process_data sample_sqrt sample_frame 10 (hms 12 30 0) !! 2%nat = Some r
    ∧ target_label r = Some "high"%string
    ∧ label_intraday_state
        (filter (λ r' : Row, session r' = session r)
                (add_columns sample_sqrt (filter_days_back sample_frame 10)))
        (hms 12 30 0)
      = Some (datetime r, "high"%string).
Proof.
  destruct (process_data sample_sqrt sample_frame 10 (hms 12 30 0) !! 2%nat)
    as [r|] eqn:Hr; [|vm_compute in Hr; discriminate].
  exists r. split; [done|].
  assert (target_label r = Some "high"%string) as Hl.
  { vm_compute in Hr. by injection Hr as <-. }
  split; [done|].
  by apply (target_label_placement sample_sqrt sample_frame 10
              (hms 12 30 0) 2%nat r "high").
Defined.

End LabelEngineMore.

(** * More on the backtester *)

Module BacktesterMore.
Import TradeBuffer Summary Spec Examples.
Import PandasFacts FloatFacts TradeBufferFacts.

Lemma head_filter_first (df : list SessionRow) (t : string) (r : SessionRow) :
  head (filter (λ r, time_str r = t) df) = Some r →
  ∃ i, first_at_time df t i r.
Proof.
  induction df as [|x df IH]; [done|].
  rewrite filter_cons. case_decide as Hx.
  - intros [= ->]. exists 0%nat. do 2 (split; [done|]). intros j r' Hj. lia.
  - intros (i & Hi & Ht & Hfirst)%IH. exists (S i). do 2 (split; [done|]).
    intros [|j] r' Hj Hr'.
    + by injection Hr' as <-.
    + apply (Hfirst j); [lia|done].
Qed.

(** X1. [analyze_session] returns a result exactly when the frame has a row
    at 12:30 whose first occurrence carries a label reading high or low, and
    rows at 15:00 and at 16:00; in every other case it returns nothing. *)
Theorem analyze_session_result_iff (session : Z) (df : list SessionRow) :
  is_Some (analyze_session session df)
  ↔ ∃ i j k entry_row r_1500 r_1600 label,
      first_at_time df "12:30:00" i entry_row
      ∧ target_label entry_row = Some label
      ∧ (lower label = "high"%string ∨ lower label = "low"%string)
      ∧ first_at_time df "15:00:00" j r_1500
      ∧ first_at_time df "16:00:00" k r_1600.
Proof.
  split.
  - unfold analyze_session. intros [res Hres].
    destruct (head (filter (λ r, time_str r = "12:30:00"%string) df))
      as [entry_row|] eqn:Hentry; [|done].
    simpl in Hres.
    destruct (target_label entry_row) as [label|] eqn:Hlabel; [|done].
    simpl in Hres.
    assert (lower label = "high"%string ∨ lower label = "low"%string) as Hrule.
    { destruct (decide (lower label = "high"%string)); [by left|].
      destruct (decide (lower label = "low"%string)); [by right|done]. }
    assert (∃ e, (if decide (lower label = "high"%string)
                  then Some (fadd (vwap_upper entry_row) buffer)
                  else if decide (lower label = "low"%string)
                  then Some (fsub (vwap_lower entry_row) buffer)
                  else None) = Some e) as [e He].
    { destruct Hrule as [Hh|Hl].
      - rewrite decide_True by done. eauto.
      - destruct (decide (lower label = "high"%string)); [eauto|].
        rewrite decide_True by done. eauto. }
    rewrite He in Hres. simpl in Hres.
    destruct (head (filter (λ r, time_str r = "15:00:00"%string) df))
      as [r_1500|] eqn:H15; [|done].
    simpl in Hres.
    destruct (head (filter (λ r, time_str r = "16:00:00"%string) df))
      as [r_1600|] eqn:H16; [|done].
    apply head_filter_first in Hentry as [i Hi], H15 as [j Hj], H16 as [k Hk].
    exists i, j, k, entry_row, r_1500, r_1600, label. done.
  - intros (i & j & k & entry_row & r_1500 & r_1600 & label
            & Hentry & Hlabel & Hrule & H15 & H16).
    apply first_at_time_head in Hentry, H15, H16.
    unfold analyze_session. rewrite Hentry. simpl. rewrite Hlabel. simpl.
    destruct Hrule as [Hh|Hl].
    + rewrite !decide_True by done. simpl. rewrite H15. simpl.
      rewrite H16. simpl. rewrite decide_True by done. eauto.
    + assert (lower label ≠ "high"%string) as Hnot by by rewrite Hl.
      rewrite !(decide_False (P := lower label = "high"%string)) by done.
      rewrite decide_True by done. simpl. rewrite H15. simpl.
      rewrite H16. simpl. rewrite decide_False by done. eauto.
Qed.

(** A label that reads neither high nor low, such as the neutral label,
    gives no result, whatever rows the frame holds. *)
Theorem analyze_session_other_label
    (session : Z) (df : list SessionRow) (i : nat)
    (entry_row : SessionRow) (label : string) :
  first_at_time df "12:30:00" i entry_row →
  target_label entry_row = Some label →
  lower label ≠ "high"%string → lower label ≠ "low"%string →
  analyze_session session df = None.
Proof.
  intros Hentry%first_at_time_head Hlabel Hh Hl.
  unfold analyze_session. rewrite Hentry. simpl. rewrite Hlabel. simpl.
  by rewrite !decide_False by done.
Qed.

Lemma analyze_session_other_label_witness :
  analyze_session 3
    [ sample_row "12:30:00" (Some "neutral"%string) 100 90 95;
      sample_row "15:00:00" None 100 90 95;
      sample_row "16:00:00" None 100 90 95 ] = None.
Proof.
  eapply (analyze_session_other_label 3 _ 0%nat _ "neutral");
    [apply first_at_time_check; reflexivity|reflexivity|discriminate|discriminate].
Defined.

Lemma head_filter_app {A : Type} (P : A → Prop) `{!∀ x, Decision (P x)}
    (l k : list A) (x : A) :
  head (filter P l) = Some x → head (filter P (l ++ k)) = Some x.
Proof.
  intros Hx. rewrite filter_app.
  destruct (filter P l); [done|]. done.
Qed.

(** X2. Only the first row at each of the three times counts: rows added
    after a frame that has a result leave the result unchanged. *)
Theorem analyze_session_later_rows
    (session : Z) (df later : list SessionRow) (res : Result) :
  analyze_session session df = Some res →
  analyze_session session (df ++ later) = Some res.
Proof.
  unfold analyze_session. intros Hres.
  destruct (head (filter (λ r, time_str r = "12:30:00"%string) df))
    as [entry_row|] eqn:Hentry; [|done].
  rewrite (head_filter_app _ _ later _ Hentry).
  simpl in *. destruct (target_label entry_row) as [label|]; [|done].
  simpl in *.
  destruct (if decide (lower label = "high"%string)
            then Some (fadd (vwap_upper entry_row) buffer)
            else if decide (lower label = "low"%string)
            then Some (fsub (vwap_lower entry_row) buffer)
            else None) as [e|]; [|done].
  simpl in *.
  destruct (head (filter (λ r, time_str r = "15:00:00"%string) df))
    as [r_1500|] eqn:H15; [|done].
  rewrite (head_filter_app _ _ later _ H15). simpl in *.
  destruct (head (filter (λ r, time_str r = "16:00:00"%string) df))
    as [r_1600|] eqn:H16; [|done].
  rewrite (head_filter_app _ _ later _ H16). done.
Qed.

Lemma analyze_session_later_rows_witness :
  ∃ res, analyze_session 7 short_session = Some res
         ∧ analyze_session 7 (short_session ++ long_session) = Some res.
Proof.
  eexists. split; [reflexivity|].
  apply analyze_session_later_rows. reflexivity.
Defined.

(** ** Streaks and counts *)

Lemma count_true_app (bs cs : list bool) :
  count_true (bs ++ cs) = (count_true bs + count_true cs)%nat.
Proof. unfold count_true. by rewrite filter_app, length_app. Qed.

Lemma count_true_replicate (n : nat) : count_true (replicate n true) = n.
Proof.
  unfold count_true. induction n as [|n IH]; [done|].
  cbn [replicate]. rewrite filter_cons, decide_True by done.
  cbn [length]. by rewrite IH.
Qed.

Lemma count_true_perm (bs cs : list bool) :
  bs ≡ₚ cs → count_true bs = count_true cs.
Proof. unfold count_true. by intros ->. Qed.

Lemma count_true_le (bs : list bool) : (count_true bs ≤ length bs)%nat.
Proof. apply length_filter. Qed.

(** The runs of a list of flags are not empty and together hold every
    [true] flag. *)
Lemma runs_of_sum (flags : list bool) (ns : list nat) :
  runs_of flags ns →
  sum_list ns = count_true flags ∧ Forall (λ n, 0 < n)%nat ns.
Proof.
  induction 1 as [|l ns Hruns [IH1 IH2]|n l ns Hn Hl Hruns [IH1 IH2]].
  - done.
  - split; [|done]. rewrite IH1. unfold count_true.
    by rewrite filter_cons, decide_False.
  - split; [|by constructor].
    rewrite count_true_app, count_true_replicate. simpl. by rewrite IH1.
Qed.

Lemma sum_list_bounds (a b : nat) (l : list nat) :
  (∀ n, n ∈ l → a ≤ n ≤ b)%nat →
  (a * length l ≤ sum_list l ≤ b * length l)%nat.
Proof.
  induction l as [|x l IH]; intros Hl; simpl; [lia|].
  pose proof (Hl x ltac:(left)).
  destruct IH as [? ?]; [intros n Hn; apply Hl; by right|]. nia.
Qed.

Lemma nat_to_Qc_le (n m : nat) : (n ≤ m)%nat → (nat_to_Qc n ≤ nat_to_Qc m)%Qc.
Proof. intros Hnm. unfold nat_to_Qc. apply (proj1 (Z2Qc_inj_le _ _)). lia. Qed.

Lemma nat_to_Qc_mul (n m : nat) :
  nat_to_Qc (n * m) = (nat_to_Qc n * nat_to_Qc m)%Qc.
Proof. unfold nat_to_Qc. by rewrite Nat2Z.inj_mul, Z2Qc_inj_mul. Qed.

Lemma nat_to_Qc_pos (n : nat) : (0 < n)%nat → (0 < nat_to_Qc n)%Qc.
Proof.
  intros Hn. unfold nat_to_Qc. rewrite <- Z2Qc_inj_0.
  apply (proj1 (Z2Qc_inj_lt _ _)). lia.
Qed.

(** A quotient of counts lies between two counts when the numerator lies
    between their multiples of the denominator. *)
Lemma nat_quotient_bounds (a b s n : nat) :
  (0 < n)%nat → (a * n ≤ s ≤ b * n)%nat →
  (nat_to_Qc a ≤ nat_to_Qc s / nat_to_Qc n ≤ nat_to_Qc b)%Qc.
Proof.
  intros Hn [Ha Hb]. pose proof (nat_to_Qc_pos n Hn) as Hpos.
  assert (nat_to_Qc n ≠ 0%Qc) as Hne.
  { intros Hz. rewrite Hz in Hpos. by apply Qclt_not_eq in Hpos. }
  split.
  - apply (Qcmult_le_mono_pos_r _ _ (nat_to_Qc n) Hpos).
    rewrite (Qcmult_comm (_ / _)%Qc), Qcmult_div_r, <- nat_to_Qc_mul by done.
    by apply nat_to_Qc_le.
  - apply (Qcmult_le_mono_pos_r _ _ (nat_to_Qc n) Hpos).
    rewrite (Qcmult_comm (_ / _)%Qc), Qcmult_div_r, <- nat_to_Qc_mul by done.
    by apply nat_to_Qc_le.
Qed.

Lemma compute_winning_streaks_cases (session_results : list Result) :
  let streaks := winning_streaks (sorted session_results) in
  (streaks = [] ∧ compute_winning_streaks session_results = (0%nat, 0%Qc, 0%nat))
  ∨ (∃ s ss, streaks = s :: ss
       ∧ compute_winning_streaks session_results
         = (list_max s ss,
            (nat_to_Qc (sum_list streaks) / nat_to_Qc (length streaks))%Qc,
            list_min s ss)).
Proof.
  intros streaks. unfold compute_winning_streaks. fold streaks.
  destruct streaks as [|s ss]; [by left|]. right. by exists s, ss.
Qed.

Lemma streaks_total (session_results : list Result) :
  let streaks := winning_streaks (sorted session_results) in
  sum_list streaks = count_true (profitable_16 <$> session_results)
  ∧ Forall (λ n, 0 < n)%nat streaks.
Proof.
  intros streaks.
  destruct (runs_of_sum _ _ (winning_streaks_runs (sorted session_results)))
    as [Hsum Hpos].
  split; [|done]. fold streaks in Hsum. rewrite Hsum.
  apply count_true_perm. by rewrite sorted_perm.
Qed.

Lemma summary_fields (session_results : list Result) :
  let s := summary session_results in
  total_sessions s = length session_results
  ∧ positive_sessions_15 s = count_true (profitable_15 <$> session_results)
  ∧ positive_sessions_16 s = count_true (profitable_16 <$> session_results)
  ∧ (longest_streak s, average_streak s, shortest_streak s)
    = compute_winning_streaks session_results.
Proof.
  unfold summary.
  destruct (compute_winning_streaks session_results) as [[lo av] sh].
  destruct session_results; simpl; done.
Qed.

(** X3. The winning streaks account for every session that was profitable
    at 16:00: their lengths add up to the count of such sessions in the
    summary, so the longest streak is at most that count, which is at most
    the number of sessions, and the longest streak is 0 exactly when no
    session was profitable. *)
Theorem streaks_account_for_wins (session_results : list Result) :
  let s := summary session_results in
  sum_list (winning_streaks (sorted session_results)) = positive_sessions_16 s
  ∧ (longest_streak s ≤ positive_sessions_16 s ≤ total_sessions s)%nat
  ∧ (longest_streak s = 0%nat ↔ positive_sessions_16 s = 0%nat).
Proof.
  intros s.
  destruct (summary_fields session_results) as (Htot & _ & Hpos & Htriple).
  fold s in Htot, Hpos, Htriple.
  destruct (streaks_total session_results) as [Hsum Hall].
  rewrite Htot, Hpos, <- Hsum.
  assert (sum_list (winning_streaks (sorted session_results))
          ≤ length session_results)%nat as Hle.
  { rewrite Hsum. etrans; [apply count_true_le|]. by rewrite length_fmap. }
  split; [done|].
  destruct (compute_winning_streaks_cases session_results)
    as [[Hnil Hc]|(x & xs & Hcons & Hc)];
    rewrite Hc in Htriple; injection Htriple as Hlo _ _; rewrite Hlo.
  - rewrite Hnil in Hle |- *. simpl in *. split; [split; [lia|exact Hle]|done].
  - rewrite Hcons in Hall, Hle |- *.
    destruct (list_max_is_max x xs) as [Hin Hub].
    pose proof (sum_list_with_in _ id _ Hin) as Hmax. simpl in Hmax.
    change (sum_list_with id (x :: xs)) with (sum_list (x :: xs)) in Hmax.
    rewrite Forall_forall in Hall. pose proof (Hall _ Hin).
    change (sum_list (x :: xs)) with (x + sum_list xs)%nat in *.
    split; [lia|]. split; lia.
Qed.

(** X4. When there is a winning streak, the three numbers returned by
    [compute_winning_streaks] are ordered: 1 <= shortest <= average <=
    longest. *)
Theorem streak_triple_ordered (session_results : list Result) (r : Result) :
  r ∈ session_results → profitable_16 r = true →
  ∃ longest average shortest,
    compute_winning_streaks session_results = (longest, average, shortest)
    ∧ (1 ≤ shortest)%nat
    ∧ (nat_to_Qc shortest ≤ average)%Qc
    ∧ (average ≤ nat_to_Qc longest)%Qc.
Proof.
  intros Hr Hwin.
  destruct (streaks_total session_results) as [Hsum Hall].
  assert (0 < count_true (profitable_16 <$> session_results))%nat as Hpos.
  { unfold count_true.
    assert (true ∈ filter (λ b, b = true) (profitable_16 <$> session_results))
      as Hin.
    { apply list_elem_of_filter. split; [done|].
      rewrite <- Hwin. by apply list_elem_of_fmap_2. }
    destruct (filter _ _); [by inversion Hin|simpl; lia]. }
  destruct (compute_winning_streaks_cases session_results)
    as [[Hnil Hc]|(x & xs & Hcons & Hc)].
  { rewrite Hnil in Hsum. simpl in Hsum. lia. }
  rewrite Hc. do 3 eexists. split; [reflexivity|].
  rewrite Hcons in Hall |- *.
  destruct (list_max_is_max x xs) as [Hmax Hub].
  destruct (list_min_is_min x xs) as [Hmin Hlb].
  rewrite Forall_forall in Hall.
  split; [specialize (Hall _ Hmin); lia|].
  apply nat_quotient_bounds; [simpl; lia|].
  apply sum_list_bounds. intros n Hn. split; [by apply Hlb|by apply Hub].
Qed.

Lemma streak_triple_ordered_witness :
  ∃ longest average shortest,
    compute_winning_streaks
      [ sample_result 4 true; sample_result 1 true;
        sample_result 3 false; sample_result 2 true ]
    = (longest, average, shortest)
    ∧ (1 ≤ shortest)%nat
    ∧ (nat_to_Qc shortest ≤ average)%Qc
    ∧ (average ≤ nat_to_Qc longest)%Qc.
Proof.
  apply (streak_triple_ordered _ (sample_result 4 true)); [left|reflexivity].
Defined.

Lemma percent_bounds (positive total : nat) :
  (0 < total)%nat → (positive ≤ total)%nat →
  (0 ≤ percent positive total ≤ qc 100 1)%Qc.
Proof.
  intros Htot Hle. unfold percent.
  destruct (nat_quotient_bounds 0 1 positive total Htot ltac:(lia)) as [Hlo Hhi].
  change (nat_to_Qc 0) with (Qc_of_Z 0) in Hlo.
  change (nat_to_Qc 1) with (Qc_of_Z 1) in Hhi.
  rewrite Z2Qc_inj_0 in Hlo. rewrite Z2Qc_inj_1 in Hhi.
  assert (0 ≤ qc 100 1)%Qc as H100 by done.
  split.
  - by apply Qcmult_nonneg_nonneg.
  - rewrite <- (Qcmult_1_l (qc 100 1)) at 2.
    by apply Qcmult_le_mono_nonneg_r.
Qed.

Lemma length_omap_filter {A B : Type} (f : A → option B) (l : list A) :
  length (omap f l) = length (filter (λ x, is_Some (f x)) l).
Proof.
  induction l as [|x l IH]; [done|].
  rewrite filter_cons. csimpl. case_decide as Hx.
  - destruct Hx as [y ->]. csimpl. by rewrite IH.
  - destruct (f x); [|done]. destruct Hx. by eexists.
Qed.

(** X5. The summary of [main] divides by the number of sessions only when
    there is one: without any result the averages and percentages read N/A
    and the counts are 0; otherwise both percentages are defined and lie
    between 0 and 100.  The number of sessions analyzed is the number of
    sessions for which [analyze_session] gave a result. *)
Theorem summary_percentages :
  (∀ session_results,
     let s := summary session_results in
     (session_results = [] →
      total_sessions s = 0%nat
      ∧ avg_profit_15 s = None ∧ avg_profit_16 s = None
      ∧ percent_15 s = None ∧ percent_16 s = None
      ∧ positive_sessions_15 s = 0%nat ∧ positive_sessions_16 s = 0%nat)
     ∧ (session_results ≠ [] →
        is_Some (avg_profit_15 s) ∧ is_Some (avg_profit_16 s)
        ∧ ∃ p15 p16,
            percent_15 s = Some p15 ∧ percent_16 s = Some p16
            ∧ (0 ≤ p15 ≤ qc 100 1)%Qc ∧ (0 ≤ p16 ≤ qc 100 1)%Qc))
  ∧ (∀ sessions,
       total_sessions (main_stats sessions)
       = length (filter (λ sd, is_Some (analyze_session sd.1 sd.2)) sessions)).
Proof.
  split.
  - intros session_results s. split.
    + intros ->. subst s. unfold summary.
      destruct (compute_winning_streaks []) as [[lo av] sh]. done.
    + intros Hne. subst s. unfold summary.
      destruct (compute_winning_streaks session_results) as [[lo av] sh].
      assert (0 < length session_results)%nat as Hlen
        by (destruct session_results; [done|simpl; lia]).
      apply Nat.ltb_lt in Hlen as Hlt. rewrite Hlt. simpl.
      do 2 (split; [by eexists|]). do 2 eexists. do 2 (split; [reflexivity|]).
      split; apply percent_bounds; try done.
      * etrans; [apply count_true_le|]. by rewrite length_fmap.
      * etrans; [apply count_true_le|]. by rewrite length_fmap.
  - intros sessions. unfold main_stats.
    destruct (summary_fields (collect_results sessions)) as (-> & _).
    by rewrite collect_results_omap, length_omap_filter.
Qed.

Lemma same_date_same_result (l : list Result) (x y : Result) :
  NoDup (res_session <$> l) → x ∈ l → y ∈ l →
  res_session x = res_session y → x = y.
Proof.
  induction l as [|z l IH]; intros Hnd Hx Hy Heq; [by inversion Hx|].
  rewrite fmap_cons in Hnd. apply NoDup_cons in Hnd as [Hz Hnd].
  apply elem_of_cons in Hx as [->|Hx]; apply elem_of_cons in Hy as [->|Hy].
  - done.
  - destruct Hz. rewrite Heq. by apply list_elem_of_fmap_2.
  - destruct Hz. rewrite <- Heq. by apply list_elem_of_fmap_2.
  - by apply IH.
Qed.

(** X6. When no two results share a session date, the streak statistics do
    not depend on the order in which the results are handed over. *)
Theorem compute_winning_streaks_any_order (results results' : list Result) :
  results ≡ₚ results' → NoDup (res_session <$> results) →
  compute_winning_streaks results = compute_winning_streaks results'.
Proof.
  intros Hperm Hnd.
  assert (sorted results = sorted results') as Hsorted.
  { apply (StronglySorted_unique_strong date_le).
    - intros x y Hx Hy Hxy Hyx. unfold date_le in *.
      rewrite sorted_perm in Hx. rewrite sorted_perm, <- Hperm in Hy.
      apply (same_date_same_result results); [done..|lia].
    - apply sorted_sorted.
    - apply sorted_sorted.
    - by rewrite !sorted_perm. }
  unfold compute_winning_streaks. by rewrite Hsorted.
Qed.

Lemma compute_winning_streaks_any_order_witness :
  compute_winning_streaks
    [ sample_result 4 true; sample_result 1 true;
      sample_result 3 false; sample_result 2 true ]
  = compute_winning_streaks
      [ sample_result 1 true; sample_result 3 false;
        sample_result 2 true; sample_result 4 true ].
Proof.
  apply compute_winning_streaks_any_order.
  - exact (Permutation_cons_append
             [ sample_result 1 true; sample_result 3 false;
               sample_result 2 true ] (sample_result 4 true)).
  - apply (bool_decide_unpack _). reflexivity.
Defined.

End BacktesterMore.

(** * The date filter *)

Module FilterFacts.
Import Calculation Filter Spec Examples.
Import PandasFacts CalculationFacts SessionFacts ProcessDataFacts.

Section FilterByDate.
Context {R : Type} (session : R → Z).

Lemma filter_by_date_same_session (df : list R) (target_date : Z) (r : R) :
  r ∈ filter_by_date session df target_date →
  filter (λ r', session r' = session r) (filter_by_date session df target_date)
  = filter (λ r', session r' = session r) df.
Proof.
  unfold filter_by_date. intros [Hr _]%list_elem_of_filter.
  rewrite list_filter_filter. apply list_filter_iff. intros r'.
  split; [tauto|]. intros Heq. rewrite Heq. done.
Qed.

(** A session with a row has a last row. *)
Lemma last_of_session_exists (l : list R) (r : R) :
  r ∈ l → ∃ i x, last_of_session session l i x ∧ session x = session r.
Proof.
  revert r. induction l as [|y l IH]; intros r Hin; [by inversion Hin|].
  destruct (decide (Exists (λ x, session x = session r) l)) as [Hex|Hno].
  - apply Exists_exists in Hex as (x & Hx & Heq).
    destruct (IH x Hx) as (i & z & [Hi Hlast] & Hz).
    exists (S i), z. split; [|congruence]. split; [done|].
    intros [|j] r' Hj Hr'; [lia|]. apply (Hlast j); [lia|done].
  - assert (session y = session r) as Hy.
    { apply elem_of_cons in Hin as [<-|Hin]; [done|].
      destruct Hno. apply Exists_exists. eauto. }
    exists 0%nat, y. split; [|done]. split; [done|].
    intros [|j] r' Hj Hr'; [lia|]. rewrite Hy. intros Heq.
    apply Hno, Exists_exists. exists r'. split; [|done].
    apply list_elem_of_lookup. eauto.
Qed.

(** X16. [filter_by_date] keeps the rows whose session lies in the three
    days that end at the target date, in their order, and keeps or drops
    each session as a whole: the kept rows of the session of a kept row are
    all the rows of that session.  Filtering the result again with the same
    date changes nothing. *)
Theorem filter_by_date_whole_sessions (df : list R) (target_date : Z) :
  let kept := filter_by_date session df target_date in
  (∀ r, r ∈ kept ↔ r ∈ df ∧ target_date - 2 ≤ session r ≤ target_date)
  ∧ kept `sublist_of` df
  ∧ (∀ r, r ∈ kept →
       filter (λ r', session r' = session r) kept
       = filter (λ r', session r' = session r) df)
  ∧ filter_by_date session kept target_date = kept.
Proof.
  intros kept. subst kept. unfold filter_by_date.
  split; [|split; [|split]].
  - intros r. rewrite list_elem_of_filter. tauto.
  - apply sublist_filter.
  - intros r Hr. by apply filter_by_date_same_session.
  - rewrite list_filter_filter. apply list_filter_iff. tauto.
Qed.
End FilterByDate.

Lemma length_filter_take {A : Type} (P : A → Prop) `{!∀ x, Decision (P x)}
    (l : list A) (n : nat) :
  (length (filter P (take n l)) ≤ length (filter P l))%nat.
Proof.
  rewrite <- (take_drop n l) at 2. rewrite filter_app, length_app. lia.
Qed.

(** X17. Filtering the frame returned by [process_data] by date leaves the
    cumulative count consistent: among the kept rows, [cum_count] never
    exceeds the number of kept rows of the same session, and some kept row
    of the session reaches it. *)
Theorem filter_by_date_keeps_counts
    sqrt df days_back target_time target_date (r : LabeledRow) :
  let out := process_data sqrt df days_back target_time in
  let kept := filter_by_date (λ r : LabeledRow, session r) out target_date in
  let rows_of_session :=
    length (filter (λ r' : LabeledRow, session r' = session r) kept) in
  r ∈ kept →
  (cum_count r ≤ rows_of_session)%nat
  ∧ ∃ r' : LabeledRow,
      r' ∈ kept ∧ session r' = session r ∧ cum_count r' = rows_of_session.
Proof.
  intros out kept rows_of_session Hr.
  pose proof (filter_by_date_same_session _ out target_date r Hr) as Hwhole.
  subst rows_of_session. fold kept in Hwhole. rewrite Hwhole.
  assert (∀ i (x : LabeledRow), out !! i = Some x →
            ∃ b, filter_days_back df days_back !! i = Some b
                 ∧ cum_count x
                   = length (filter (λ b', assign_session (datetime b')
                                           = assign_session (datetime b))
                                    (take (S i) (filter_days_back df days_back)))
                 ∧ session x = assign_session (datetime b)) as Hcount.
  { intros i x (b & Hb & ->)%process_data_row. eauto. }
  assert (∀ k, length (filter (λ r' : LabeledRow, session r' = k) out)
               = length (filter (λ b', assign_session (datetime b') = k)
                                (filter_days_back df days_back))) as Hlen.
  { intros k.
    rewrite <- (length_filter_key (λ r : LabeledRow, session r)).
    subst out. by rewrite session_column, length_filter_key. }
  assert (r ∈ out) as Hout.
  { unfold kept, filter_by_date in Hr.
    by apply list_elem_of_filter in Hr as [_ ?]. }
  split.
  - apply list_elem_of_lookup in Hout as [i Hi].
    destruct (Hcount i r Hi) as (b & Hb & -> & Hs).
    rewrite Hlen, Hs. apply length_filter_take.
  - destruct (last_of_session_exists (λ r : LabeledRow, session r) out r Hout)
      as (j & x & Hlast & Hx).
    exists x. split; [|split; [done|]].
    + unfold kept, filter_by_date in Hr |- *.
      apply list_elem_of_filter in Hr as [Hwin _].
      apply list_elem_of_filter. rewrite Hx. split; [done|].
      destruct Hlast as [Hj _]. apply list_elem_of_lookup. eauto.
    + destruct (last_of_session_bars _ _ _ _ _ _ Hlast)
        as (b & Hrow & Hb & Hlast').
      pose proof (same_key_last (λ b, assign_session (datetime b))
                    _ j b Hb Hlast') as Hsofar.
      rewrite Hlen, <- Hx, Hrow. cbn [cum_count session row_of].
      unfold session_so_far. by rewrite Hsofar.
Qed.

Lemma filter_by_date_keeps_counts_witness :
  ∃ r : LabeledRow,
    process_data sample_sqrt sample_frame 10 (hms 12 30 0) !! 2%nat = Some r
    ∧ (cum_count r
       ≤ length (filter (λ r' : LabeledRow, session r' = session r)
                   (filter_by_date (λ r : LabeledRow, session r)
                      (process_data sample_sqrt sample_frame 10 (hms 12 30 0))
                      1)))%nat.
Proof.
  destruct (process_data sample_sqrt sample_frame 10 (hms 12 30 0) !! 2%nat)
    as [r|] eqn:Hr; [|vm_compute in Hr; discriminate].
  exists r. split; [done|].
  apply (filter_by_date_keeps_counts sample_sqrt sample_frame 10
           (hms 12 30 0) 1 r).
  unfold filter_by_date. apply list_elem_of_filter. split.
  - vm_compute in Hr. injection Hr as <-. simpl. lia.
  - apply list_elem_of_lookup. eauto.
Defined.

End FilterFacts.
